(** * mcp-mirage: the brand extractors of [mirage.services]

    A shallow embedding of [src/mirage/services/firecrawl.py] and
    [src/mirage/services/vision.py]: the two service constructors, the
    mapping of a Firecrawl scrape response onto the brand schema
    ([FirecrawlService.extract_brand]) and the parser of the vision model's
    reply ([VisionService._parse_response], [analyze_brand]).

    Python objects decoded from JSON are the inductive [json]; a call that
    Python may refuse ([.get] on something that is not a dict) returns an
    [outcome], a value or an exception, and the code is a chain of binds.
    The HTTP transport, the model, [json.loads] and the constructors of
    the two clients are collaborators from outside the repository and
    enter as function arguments, each returning a value or raising.  The schema
    classes and the colour similarity scorer belong to the repository but
    not to the sources at hand; they are modelled from the specification,
    and say so. *)

From Stdlib Require Import ZArith List String Ascii Bool Lia DecimalString.
From Stdlib Require Import Floats.
From Stdlib Require Import Reals Lra.
Import ListNotations.

Set Warnings "-register-all".

Open Scope string_scope.

(* ------------------------------------------------------------------ *)
(** ** The Python fragment *)

Module Py.

(** A Python object as [json.loads] / [response.json()] builds it:
    [None], [bool], [int], [float], [str], [list], [dict].  A dict is the
    list of its items in insertion order (its keys are distinct). *)
Inductive json : Type :=
| JNull
| JBool (b : bool)
| JInt (z : Z)
| JFloat (f : float)
| JStr (s : string)
| JArr (items : list json)
| JObj (items : list (string * json)).

(** Exceptions the modelled code can meet, one constructor for each class.
    [HTTPError] stands for whatever the transport raises ([httpx] request
    and status errors).  [JSONDecodeError] is the class of [json]; in
    Python it derives from [ValueError], and a handler for it does not
    take a plain [ValueError]. *)
Inductive exn : Type :=
| AttributeError
| TypeError
| KeyError (key : string)
| ValueError (msg : string)
| HTTPError (detail : string)
| JSONDecodeError (msg : string)
| RecursionError
| UnicodeEncodeError.

(** The result of running a piece of Python: a value or an exception. *)
Inductive outcome (A : Type) : Type :=
| Returns (a : A)
| Raises (e : exn).

Arguments Returns {A} a.
Arguments Raises {A} e.

Definition bind {A B : Type} (m : outcome A) (k : A -> outcome B) : outcome B :=
  match m with
  | Returns a => k a
  | Raises e => Raises e
  end.

(** Python truth value of an object ([bool(v)]). *)
Definition truthy (v : json) : bool :=
  match v with
  | JNull => false
  | JBool b => b
  | JInt z => negb (z =? 0)%Z
  | JFloat f => negb (PrimFloat.eqb f 0%float)
  | JStr s => negb (s =? "")
  | JArr items => match items with [] => false | _ :: _ => true end
  | JObj items => match items with [] => false | _ :: _ => true end
  end.

(** First item stored under [k]. *)
Fixpoint assoc {A : Type} (k : string) (items : list (string * A)) : option A :=
  match items with
  | [] => None
  | (k', v) :: rest => if k' =? k then Some v else assoc k rest
  end.

Definition lookup_default (items : list (string * json)) (k : string) (dflt : json) : json :=
  match assoc k items with
  | Some v => v
  | None => dflt
  end.

(** [d.get(k, dflt)]: only a dict has the method. *)
Definition dict_get (d : json) (k : string) (dflt : json) : outcome json :=
  match d with
  | JObj items => Returns (lookup_default items k dflt)
  | _ => Raises AttributeError
  end.

(** [list(d.values())]. *)
Definition dict_values (d : json) : outcome (list json) :=
  match d with
  | JObj items => Returns (map snd items)
  | _ => Raises AttributeError
  end.

Fixpoint prefix (p s : string) : bool :=
  match p, s with
  | EmptyString, _ => true
  | String a p', String b s' => Ascii.eqb a b && prefix p' s'
  | String _ _, EmptyString => false
  end.

Fixpoint substring_of (p s : string) : bool :=
  prefix p s ||
  match s with
  | EmptyString => false
  | String _ s' => substring_of p s'
  end.

(** [k in c] for a string [k]: key of a dict, element of a list, substring
    of a string; the other objects are not containers. *)
Definition py_in (k : string) (c : json) : outcome bool :=
  match c with
  | JObj items => Returns (match assoc k items with Some _ => true | None => false end)
  | JArr items =>
      Returns (existsb (fun v => match v with JStr s => s =? k | _ => false end) items)
  | JStr s => Returns (substring_of k s)
  | _ => Raises TypeError
  end.

(** [c[k]] for a string [k]. *)
Definition subscript (c : json) (k : string) : outcome json :=
  match c with
  | JObj items =>
      match assoc k items with
      | Some v => Returns v
      | None => Raises (KeyError k)
      end
  | _ => Raises TypeError
  end.

(** [str(v)] on [None], booleans, integers and strings.  The text of a
    float, a list or a dict is not described here. *)
Definition py_str (v : json) : option string :=
  match v with
  | JNull => Some "None"
  | JBool true => Some "True"
  | JBool false => Some "False"
  | JInt z => Some (NilZero.string_of_int (Z.to_int z))
  | JStr s => Some s
  | JFloat _ | JArr _ | JObj _ => None
  end.

(** The string an f-string [f"{v}suffix"] builds: its text where [str(v)]
    is described, and otherwise the interpolated object beside the suffix.
    An f-string never raises. *)
Inductive fstring : Type :=
| FText (s : string)
| FObject (v : json) (suffix : string).

Definition format (v : json) (suffix : string) : fstring :=
  match py_str v with
  | Some s => FText (s ++ suffix)
  | None => FObject v suffix
  end.

(** [os.getenv(name)] in an environment given by its items. *)
Definition getenv (environ : list (string * string)) (name : string) : option string :=
  assoc name environ.

(** [api_key or os.getenv(name)] followed by [if not self.api_key]: the
    key the constructors keep, if any.  An empty string is false. *)
Definition nonempty (o : option string) : bool :=
  match o with
  | Some s => negb (s =? "")
  | None => false
  end.

Definition or_else (a b : option string) : option string :=
  if nonempty a then a else b.

End Py.

Import Py.

Declare Scope py_scope.
Delimit Scope py_scope with py.
Notation "x <- m ;; k" := (bind m (fun x => k))
  (at level 61, m at next level, right associativity) : py_scope.
Open Scope py_scope.

(* ------------------------------------------------------------------ *)
(** ** The brand schema ([mirage.schemas.brand]) *)

(** Modelled from the spec: the schema classes of [mirage/schemas/brand.py]
    are imported by both services but the file is not among the sources.
    Section 3 of the specification gives their fields and defaults; a field
    holds the object it was given, and an optional field that is absent
    holds [None] ([JNull]).  Construction stores its arguments unchanged
    and does not fail (the specification: "extractors pass through whatever
    the upstream returns", "every attribute has a deterministic default"). *)

Module BrandColors.
Record t : Type := Build {
  primary : json;
  secondary : json;
  accent : json;
  background : json;
  text : json;
  palette : list json
}.
End BrandColors.

Module BrandTypography.
Record t : Type := Build {
  headings : json;
  body : json;
  weights : json;
  base_size : json
}.
(** Modelled from the spec: [weights] defaults to [[400, 600, 700]]. *)
Definition default_weights : json := JArr [JInt 400; JInt 600; JInt 700].
End BrandTypography.

Module BrandSpacing.
Record t : Type := Build {
  grid : fstring;
  gap : json
}.
(** Modelled from the spec: [BrandSpacing()] has grid ["8px"] and no gap. *)
Definition default : t := {| grid := FText "8px"; gap := JNull |}.
End BrandSpacing.

Module ButtonStyle.
Record t : Type := Build {
  bg : json;
  text : json;
  border_radius : json;
  padding : json;
  border : json
}.
End ButtonStyle.

Module BrandButtons.
Record t : Type := Build {
  primary : option ButtonStyle.t;
  secondary : option ButtonStyle.t
}.
(** Modelled from the spec: [BrandButtons()] has both slots absent. *)
Definition default : t := {| primary := None; secondary := None |}.
End BrandButtons.

Module BrandData.
Record t : Type := Build {
  url : string;
  colors : BrandColors.t;
  typography : BrandTypography.t;
  spacing : BrandSpacing.t;
  buttons : BrandButtons.t;
  logo_url : json;
  favicon_url : json;
  screenshots : list json
}.
End BrandData.

(* ------------------------------------------------------------------ *)
(** ** [mirage.services.firecrawl] *)

Module FirecrawlService.

Definition BASE_URL : string := "https://api.firecrawl.dev/v1".

(** The service object: the key it kept and the headers of its client. *)
Record t : Type := Build {
  api_key : string;
  headers : list (string * string)
}.

(** The headers the client is constructed with (lines 35-38). *)
Definition headers_of (api_key : string) : list (string * string) :=
  [("Authorization", "Bearer " ++ api_key);
   ("Content-Type", "application/json")].

(** [FirecrawlService.__init__] (lines 23-40), run in the environment
    [environ]; [api_key] is [None] when the argument is left out.
    [client environ headers] is [httpx.AsyncClient(base_url=BASE_URL,
    headers=headers, timeout=60.0)] of lines 33-40, constructed in that
    environment: it returns or raises - [httpx] encodes the header values
    and reads its own settings from the environment - and what it raises
    leaves the constructor. *)
Definition __init__ (client : list (string * string) -> list (string * string) -> outcome unit)
    (environ : list (string * string)) (api_key : option string)
  : outcome t :=
  let key := or_else api_key (getenv environ "FIRECRAWL_API_KEY") in
  match key with
  | Some k =>
      if negb (k =? "") then
        built <- client environ (headers_of k) ;;
        Returns {| api_key := k; headers := headers_of k |}
      else Raises (ValueError "FIRECRAWL_API_KEY is required")
  | None => Raises (ValueError "FIRECRAWL_API_KEY is required")
  end.

(** The request body of [extract_brand] (lines 75-81). *)
Definition payload (url : string) (include_screenshots : bool) : json :=
  JObj [("url", JStr url);
        ("formats",
         JArr (JStr "branding" ::
               if include_screenshots then [JStr "screenshot"] else []))].

(** [FirecrawlService.extract_brand] (lines 64-160).  [post body] is the
    transport: [self.client.post("/scrape", json=body)], then
    [raise_for_status()] and [response.json()]. *)
Definition extract_brand (post : json -> outcome json)
    (url : string) (include_screenshots : bool) : outcome BrandData.t :=
  data <- post (payload url include_screenshots) ;;
  (* Parse the branding data *)
  data_data <- dict_get data "data" (JObj []) ;;
  branding <- dict_get data_data "branding" (JObj []) ;;
  screenshots <-
    (if include_screenshots then
       d <- dict_get data "data" (JObj []) ;;
       found <- py_in "screenshot" d ;;
       if found then
         dd <- subscript data "data" ;;
         shot <- subscript dd "screenshot" ;;
         Returns [shot]
       else Returns []
     else Returns []) ;;
  (* Extract colors *)
  colors_data <- dict_get branding "colors" (JObj []) ;;
  c_primary <- dict_get colors_data "primary" (JStr "#000000") ;;
  c_secondary <- dict_get colors_data "secondary" JNull ;;
  c_accent <- dict_get colors_data "accent" JNull ;;
  c_background <- dict_get colors_data "background" JNull ;;
  c_text <- dict_get colors_data "textPrimary" JNull ;;
  c_palette <- (if truthy colors_data then dict_values colors_data else Returns []) ;;
  let colors := {| BrandColors.primary := c_primary;
                   BrandColors.secondary := c_secondary;
                   BrandColors.accent := c_accent;
                   BrandColors.background := c_background;
                   BrandColors.text := c_text;
                   BrandColors.palette := c_palette |} in
  (* Extract typography *)
  typo_data <- dict_get branding "typography" (JObj []) ;;
  font_families <- dict_get typo_data "fontFamilies" (JObj []) ;;
  font_weights <- dict_get typo_data "fontWeights" (JObj []) ;;
  t_primary <- dict_get font_families "primary" (JStr "sans-serif") ;;
  t_headings <- dict_get font_families "heading" t_primary ;;
  t_body <- dict_get font_families "primary" (JStr "sans-serif") ;;
  t_weights <- (if truthy font_weights
                then vs <- dict_values font_weights ;; Returns (JArr vs)
                else Returns (JArr [JInt 400; JInt 600; JInt 700])) ;;
  font_sizes <- dict_get typo_data "fontSizes" (JObj []) ;;
  t_base_size <- dict_get font_sizes "body" (JStr "16px") ;;
  let typography := {| BrandTypography.headings := t_headings;
                       BrandTypography.body := t_body;
                       BrandTypography.weights := t_weights;
                       BrandTypography.base_size := t_base_size |} in
  (* Extract spacing *)
  spacing_data <- dict_get branding "spacing" (JObj []) ;;
  base_unit <- dict_get spacing_data "baseUnit" (JInt 8) ;;
  radius <- dict_get spacing_data "borderRadius" JNull ;;
  radius' <- (if truthy radius then dict_get spacing_data "borderRadius" JNull
              else Returns JNull) ;;
  let spacing := {| BrandSpacing.grid := format base_unit "px";
                    BrandSpacing.gap := radius' |} in
  (* Extract button styles *)
  components <- dict_get branding "components" (JObj []) ;;
  button_primary <- dict_get components "buttonPrimary" JNull ;;
  b_primary <-
    (if truthy button_primary then
       btn <- subscript components "buttonPrimary" ;;
       bg <- dict_get btn "background" (BrandColors.primary colors) ;;
       text <- dict_get btn "textColor" (JStr "#ffffff") ;;
       border_radius <- dict_get btn "borderRadius" (JStr "4px") ;;
       Returns (Some {| ButtonStyle.bg := bg;
                        ButtonStyle.text := text;
                        ButtonStyle.border_radius := border_radius;
                        ButtonStyle.padding := JStr "12px 24px";
                        ButtonStyle.border := JNull |})
     else Returns None) ;;
  button_secondary <- dict_get components "buttonSecondary" JNull ;;
  b_secondary <-
    (if truthy button_secondary then
       btn <- subscript components "buttonSecondary" ;;
       bg <- dict_get btn "background" (JStr "transparent") ;;
       text <- dict_get btn "textColor" (BrandColors.primary colors) ;;
       border_radius <- dict_get btn "borderRadius" (JStr "4px") ;;
       border <- dict_get btn "borderColor" JNull ;;
       Returns (Some {| ButtonStyle.bg := bg;
                        ButtonStyle.text := text;
                        ButtonStyle.border_radius := border_radius;
                        ButtonStyle.padding := JStr "12px 24px";
                        ButtonStyle.border := border |})
     else Returns None) ;;
  let buttons := {| BrandButtons.primary := b_primary;
                    BrandButtons.secondary := b_secondary |} in
  (* Extract images/logos *)
  images <- dict_get branding "images" (JObj []) ;;
  images_logo <- dict_get images "logo" JNull ;;
  logo_url <- (if truthy images_logo then Returns images_logo
               else dict_get branding "logo" JNull) ;;
  favicon <- dict_get images "favicon" JNull ;;
  Returns {| BrandData.url := url;
             BrandData.colors := colors;
             BrandData.typography := typography;
             BrandData.spacing := spacing;
             BrandData.buttons := buttons;
             BrandData.logo_url := logo_url;
             BrandData.favicon_url := favicon;
             BrandData.screenshots := screenshots |}.

End FirecrawlService.

(* ------------------------------------------------------------------ *)
(** ** [mirage.services.vision] *)

(** The text of the model's reply is scanned character by character, so it
    is the list of its code points.  (Strings that are only stored and
    compared - keys, colours, URLs - are [string]s.) *)
Module Text.

Definition str : Type := list N.

Definition newline : N := 10.

(** The code points of an ASCII literal. *)
Definition of_string (s : string) : str :=
  map N_of_ascii (list_ascii_of_string s).

(** [str.isspace] of one character: the whitespace of [str.strip()]. *)
Definition isspace (c : N) : bool :=
  ((9 <=? c) && (c <=? 13) || (28 <=? c) && (c <=? 32)
   || (c =? 133) || (c =? 160) || (c =? 5760)
   || (8192 <=? c) && (c <=? 8202)
   || (c =? 8232) || (c =? 8233) || (c =? 8239) || (c =? 8287)
   || (c =? 12288))%N.

Fixpoint lstrip (s : str) : str :=
  match s with
  | [] => []
  | c :: rest => if isspace c then lstrip rest else s
  end.

Definition rstrip (s : str) : str := rev (lstrip (rev s)).

(** [s.strip()]. *)
Definition strip (s : str) : str := rstrip (lstrip s).

(** [s.startswith(p)]. *)
Fixpoint startswith (s p : str) {struct p} : bool :=
  match p with
  | [] => true
  | a :: p' =>
      match s with
      | [] => false
      | b :: s' => (a =? b)%N && startswith s' p'
      end
  end.

Fixpoint eqb (a b : str) : bool :=
  match a, b with
  | [], [] => true
  | x :: a', y :: b' => (x =? y)%N && eqb a' b'
  | _, _ => false
  end.

(** [s.split("\n")]: the lines of [s], at least one. *)
Fixpoint split_lines (s : str) : list str :=
  match s with
  | [] => [[]]
  | c :: rest =>
      if (c =? newline)%N then [] :: split_lines rest
      else match split_lines rest with
           | [] => [[c]]
           | line :: more => (c :: line) :: more
           end
  end.

(** ["\n".join(lines)]. *)
Fixpoint join_lines (lines : list str) : str :=
  match lines with
  | [] => []
  | [line] => line
  | line :: more => (line ++ newline :: join_lines more)%list
  end.

(** A text that does not begin with whitespace. *)
Definition trimmed_left (s : str) : Prop :=
  match s with
  | [] => True
  | c :: _ => isspace c = false
  end.

End Text.

Module VisionService.

Import Text.

Record t : Type := Build {
  api_key : string;
  model : string
}.

(** [VisionService.__init__] (lines 22-33).  [client environ key] is
    [anthropic.AsyncAnthropic(api_key=key)] of line 32, constructed in the
    environment [environ]: it returns or raises, and what it raises leaves
    the constructor. *)
Definition __init__ (client : list (string * string) -> string -> outcome unit)
    (environ : list (string * string)) (api_key : option string)
  : outcome t :=
  let key := or_else api_key (getenv environ "ANTHROPIC_API_KEY") in
  match key with
  | Some k =>
      if negb (k =? "") then
        built <- client environ k ;;
        Returns {| api_key := k; model := "claude-sonnet-4-20250514" |}
      else Raises (ValueError "ANTHROPIC_API_KEY is required")
  | None => Raises (ValueError "ANTHROPIC_API_KEY is required")
  end.

(** The marker of a code block, three backticks. *)
Definition fence : str := [96; 96; 96]%N.

(** [VisionService._default_brand_data] (lines 209-218); the omitted
    arguments take the schema's defaults. *)
Definition _default_brand_data (source_url screenshot_url : string) : BrandData.t :=
  {| BrandData.url := source_url;
     BrandData.colors :=
       {| BrandColors.primary := JStr "#000000";
          BrandColors.secondary := JNull;
          BrandColors.accent := JNull;
          BrandColors.background := JNull;
          BrandColors.text := JNull;
          BrandColors.palette := [] |};
     BrandData.typography :=
       {| BrandTypography.headings := JStr "sans-serif";
          BrandTypography.body := JStr "sans-serif";
          BrandTypography.weights := BrandTypography.default_weights;
          BrandTypography.base_size := JNull |};
     BrandData.spacing := BrandSpacing.default;
     BrandData.buttons := BrandButtons.default;
     BrandData.logo_url := JNull;
     BrandData.favicon_url := JNull;
     BrandData.screenshots := [JStr screenshot_url] |}.

(** Lines 132-142 of [_parse_response]: the reply trimmed and, when it
    opens with a fence, without its first line and without a last line
    that is a bare fence. *)
Definition unfenced (response_text : str) : str :=
  let text := strip response_text in
  if startswith text fence then
    let lines := split_lines text in
    let lines := tl lines in
    let lines :=
      match lines with
      | [] => lines
      | _ :: _ => if eqb (strip (last lines [])) fence then removelast lines else lines
      end in
    join_lines lines
  else text.

(** Lines 149-207 of [_parse_response]: the decoded reply mapped onto the
    schema. *)
Definition brand_of (data : json) (source_url screenshot_url : string)
  : outcome BrandData.t :=
  (* Build BrandColors *)
  colors_data <- dict_get data "colors" (JObj []) ;;
  c_primary <- dict_get colors_data "primary" (JStr "#000000") ;;
  c_secondary <- dict_get colors_data "secondary" JNull ;;
  c_accent <- dict_get colors_data "accent" JNull ;;
  c_background <- dict_get colors_data "background" (JStr "#ffffff") ;;
  c_text <- dict_get colors_data "text" (JStr "#000000") ;;
  p1 <- dict_get colors_data "primary" JNull ;;
  p2 <- dict_get colors_data "secondary" JNull ;;
  p3 <- dict_get colors_data "accent" JNull ;;
  p4 <- dict_get colors_data "background" JNull ;;
  p5 <- dict_get colors_data "text" JNull ;;
  let colors := {| BrandColors.primary := c_primary;
                   BrandColors.secondary := c_secondary;
                   BrandColors.accent := c_accent;
                   BrandColors.background := c_background;
                   BrandColors.text := c_text;
                   BrandColors.palette := filter truthy [p1; p2; p3; p4; p5] |} in
  (* Build BrandTypography *)
  typo_data <- dict_get data "typography" (JObj []) ;;
  t_headings <- dict_get typo_data "headings" (JStr "sans-serif") ;;
  t_body <- dict_get typo_data "body" (JStr "sans-serif") ;;
  t_weights <- dict_get typo_data "weights" (JArr [JInt 400; JInt 600; JInt 700]) ;;
  let typography := {| BrandTypography.headings := t_headings;
                       BrandTypography.body := t_body;
                       BrandTypography.weights := t_weights;
                       BrandTypography.base_size := JNull |} in
  (* Build BrandButtons *)
  buttons_data <- dict_get data "buttons" (JObj []) ;;
  button_primary <- dict_get buttons_data "primary" JNull ;;
  b_primary <-
    (if truthy button_primary then
       btn <- subscript buttons_data "primary" ;;
       bg <- dict_get btn "bg" (BrandColors.primary colors) ;;
       text <- dict_get btn "text" (JStr "#ffffff") ;;
       border_radius <- dict_get btn "border_radius" (JStr "4px") ;;
       has_border <- dict_get btn "has_border" JNull ;;
       border <- (if truthy has_border then dict_get btn "border" JNull
                  else Returns JNull) ;;
       Returns (Some {| ButtonStyle.bg := bg;
                        ButtonStyle.text := text;
                        ButtonStyle.border_radius := border_radius;
                        ButtonStyle.padding := JStr "12px 24px";
                        ButtonStyle.border := border |})
     else Returns None) ;;
  button_secondary <- dict_get buttons_data "secondary" JNull ;;
  b_secondary <-
    (if truthy button_secondary then
       btn <- subscript buttons_data "secondary" ;;
       bg <- dict_get btn "bg" (JStr "transparent") ;;
       text <- dict_get btn "text" (BrandColors.primary colors) ;;
       border_radius <- dict_get btn "border_radius" (JStr "4px") ;;
       has_border <- dict_get btn "has_border" JNull ;;
       border <- (if truthy has_border then dict_get btn "border" JNull
                  else Returns JNull) ;;
       Returns (Some {| ButtonStyle.bg := bg;
                        ButtonStyle.text := text;
                        ButtonStyle.border_radius := border_radius;
                        ButtonStyle.padding := JStr "12px 24px";
                        ButtonStyle.border := border |})
     else Returns None) ;;
  Returns {| BrandData.url := source_url;
             BrandData.colors := colors;
             BrandData.typography := typography;
             BrandData.spacing := BrandSpacing.default;
             BrandData.buttons := {| BrandButtons.primary := b_primary;
                                     BrandButtons.secondary := b_secondary |};
             BrandData.logo_url := JNull;
             BrandData.favicon_url := JNull;
             BrandData.screenshots := [JStr screenshot_url] |}.

(** [except json.JSONDecodeError] (line 146): the exceptions the handler
    of [_parse_response] takes. *)
Definition is_decode_error (e : exn) : bool :=
  match e with
  | JSONDecodeError _ => true
  | _ => false
  end.

(** [VisionService._parse_response] (lines 125-207).  [json_loads] is
    [json.loads], which returns the decoded object or raises:
    [JSONDecodeError] on a text that is no JSON, and also a plain
    [ValueError] on an integer of more than 4300 digits or
    [RecursionError] on a deep nesting.  The handler of lines 146-147
    takes the first and lets every other exception pass. *)
Definition _parse_response (json_loads : str -> outcome json)
    (response_text : str) (source_url screenshot_url : string)
  : outcome BrandData.t :=
  match json_loads (strip (unfenced response_text)) with
  | Returns data => brand_of data source_url screenshot_url
  | Raises e =>
      if is_decode_error e then Returns (_default_brand_data source_url screenshot_url)
      else Raises e
  end.

(** [VisionService.analyze_brand] (lines 35-74).  [create screenshot_url]
    is the request to the model - [self.client.messages.create(...)] with
    the screenshot and the extraction prompt - followed by
    [message.content[0].text]. *)
Definition analyze_brand (create : string -> outcome str)
    (json_loads : str -> outcome json) (screenshot_url source_url : string)
  : outcome BrandData.t :=
  response_text <- create screenshot_url ;;
  _parse_response json_loads response_text source_url screenshot_url.

End VisionService.

(* ------------------------------------------------------------------ *)
(** ** The colour similarity scorer *)

(** Modelled from the spec: [GeminiService.calculate_color_similarity] is
    defined in [mirage/services/gemini.py], which is not among the sources
    (its tests are).  Section 4.3 of the specification: the distance of two
    colours is their "normalized Euclidean distance over RGB", mapped
    "through a decreasing function to [0,1]"; here the distance divided by
    the largest one, black to white, and subtracted from one.  A colour is
    a hex literal [#RRGGBB] or [#RGB] (section 3); the arithmetic is that
    of the real numbers. *)
Module Similarity.

Definition hex_digit (c : ascii) : option Z :=
  let n := Z.of_N (N_of_ascii c) in
  if (48 <=? n)%Z && (n <=? 57)%Z then Some (n - 48)%Z
  else if (65 <=? n)%Z && (n <=? 70)%Z then Some (n - 55)%Z
  else if (97 <=? n)%Z && (n <=? 102)%Z then Some (n - 87)%Z
  else None.

Definition channel (hi lo : ascii) : option Z :=
  match hex_digit hi, hex_digit lo with
  | Some h, Some l => Some (16 * h + l)%Z
  | _, _ => None
  end.

Definition rgb : Type := (Z * Z * Z)%type.

Definition triple (r g b : option Z) : option rgb :=
  match r, g, b with
  | Some r, Some g, Some b => Some (r, g, b)
  | _, _, _ => None
  end.

Definition hex_to_rgb (color : string) : option rgb :=
  match color with
  | String hash digits =>
      if Ascii.eqb hash "#" then
        match list_ascii_of_string digits with
        | [r1; r2; g1; g2; b1; b2] =>
            triple (channel r1 r2) (channel g1 g2) (channel b1 b2)
        | [r; g; b] => triple (channel r r) (channel g g) (channel b b)
        | _ => None
        end
      else None
  | EmptyString => None
  end.

Definition distance_sq (x y : rgb) : Z :=
  let '(r1, g1, b1) := x in
  let '(r2, g2, b2) := y in
  ((r1 - r2) ^ 2 + (g1 - g2) ^ 2 + (b1 - b2) ^ 2)%Z.

Definition max_distance_sq : Z := (3 * 255 ^ 2)%Z.

Definition similarity_of (x y : rgb) : R :=
  (1 - sqrt (IZR (distance_sq x y)) / sqrt (IZR max_distance_sq))%R.

Definition calculate_color_similarity (color1 color2 : string) : option R :=
  match hex_to_rgb color1, hex_to_rgb color2 with
  | Some x, Some y => Some (similarity_of x y)
  | _, _ => None
  end.

(** The channels of a colour are bytes. *)
Definition in_range (x : rgb) : Prop :=
  let '(r, g, b) := x in (0 <= r <= 255 /\ 0 <= g <= 255 /\ 0 <= b <= 255)%Z.

End Similarity.

(* ------------------------------------------------------------------ *)
(** ** Reading a payload: the vocabulary of the statements *)

Module Payload.

(** The object found by following the keys [ks] from [v] through nested
    dicts, if every key on the way is present. *)
Fixpoint path (ks : list string) (v : json) : option json :=
  match ks with
  | [] => Some v
  | k :: ks' =>
      match v with
      | JObj items =>
          match assoc k items with
          | Some v' => path ks' v'
          | None => None
          end
      | _ => None
      end
  end.

(** A field of the branding object of a scrape response. *)
Definition branding (ks : list string) (resp : json) : option json :=
  path ("data" :: "branding" :: ks) resp.

Definition or_default (o : option json) (dflt : json) : json :=
  match o with
  | Some v => v
  | None => dflt
  end.

Definition is_object (v : json) : bool :=
  match v with
  | JObj _ => true
  | _ => false
  end.

Definition falsy_or_object (v : json) : bool := negb (truthy v) || is_object v.

Definition absent_or (p : json -> bool) (o : option json) : bool :=
  match o with
  | Some v => p v
  | None => true
  end.

(** A scrape response in which every field that [extract_brand] reads as
    a dict is absent or a dict: the response, [data], [branding] and its
    [colors], [typography] (with [fontFamilies], [fontSizes]), [spacing],
    [components], [images].  [fontWeights] and the two button components
    may also be any false object. *)
Definition expected_shape (resp : json) : bool :=
  is_object resp
  && absent_or is_object (path ["data"] resp)
  && absent_or is_object (branding [] resp)
  && absent_or is_object (branding ["colors"] resp)
  && absent_or is_object (branding ["typography"] resp)
  && absent_or is_object (branding ["typography"; "fontFamilies"] resp)
  && absent_or falsy_or_object (branding ["typography"; "fontWeights"] resp)
  && absent_or is_object (branding ["typography"; "fontSizes"] resp)
  && absent_or is_object (branding ["spacing"] resp)
  && absent_or is_object (branding ["components"] resp)
  && absent_or falsy_or_object (branding ["components"; "buttonPrimary"] resp)
  && absent_or falsy_or_object (branding ["components"; "buttonSecondary"] resp)
  && absent_or is_object (branding ["images"] resp).

(** A decoded reply of the vision model in which every field that
    [_parse_response] reads as a dict is absent or a dict: the reply and
    its [colors], [typography] and [buttons]; the two buttons may also be
    any false object ([null] in the prompt's own example). *)
Definition reply_shape (data : json) : bool :=
  is_object data
  && absent_or is_object (path ["colors"] data)
  && absent_or is_object (path ["typography"] data)
  && absent_or is_object (path ["buttons"] data)
  && absent_or falsy_or_object (path ["buttons"; "primary"] data)
  && absent_or falsy_or_object (path ["buttons"; "secondary"] data).

(** The result [bd] carries the default of every field that the response
    [resp] leaves out (section 4.1 of the specification). *)
Record defaulted (resp : json) (bd : BrandData.t) : Prop := {
  default_primary :
    branding ["colors"; "primary"] resp = None ->
    BrandColors.primary (BrandData.colors bd) = JStr "#000000";
  default_secondary :
    branding ["colors"; "secondary"] resp = None ->
    BrandColors.secondary (BrandData.colors bd) = JNull;
  default_accent :
    branding ["colors"; "accent"] resp = None ->
    BrandColors.accent (BrandData.colors bd) = JNull;
  default_background :
    branding ["colors"; "background"] resp = None ->
    BrandColors.background (BrandData.colors bd) = JNull;
  default_text :
    branding ["colors"; "textPrimary"] resp = None ->
    BrandColors.text (BrandData.colors bd) = JNull;
  default_palette :
    branding ["colors"] resp = None ->
    BrandColors.palette (BrandData.colors bd) = [];
  default_headings :
    branding ["typography"; "fontFamilies"; "heading"] resp = None ->
    branding ["typography"; "fontFamilies"; "primary"] resp = None ->
    BrandTypography.headings (BrandData.typography bd) = JStr "sans-serif";
  default_body :
    branding ["typography"; "fontFamilies"; "primary"] resp = None ->
    BrandTypography.body (BrandData.typography bd) = JStr "sans-serif";
  default_weights :
    branding ["typography"; "fontWeights"] resp = None ->
    BrandTypography.weights (BrandData.typography bd) =
      JArr [JInt 400; JInt 600; JInt 700];
  default_base_size :
    branding ["typography"; "fontSizes"; "body"] resp = None ->
    BrandTypography.base_size (BrandData.typography bd) = JStr "16px";
  default_grid :
    branding ["spacing"; "baseUnit"] resp = None ->
    BrandSpacing.grid (BrandData.spacing bd) = FText "8px";
  default_gap :
    branding ["spacing"; "borderRadius"] resp = None ->
    BrandSpacing.gap (BrandData.spacing bd) = JNull;
  default_button_primary :
    branding ["components"; "buttonPrimary"] resp = None ->
    BrandButtons.primary (BrandData.buttons bd) = None;
  default_button_secondary :
    branding ["components"; "buttonSecondary"] resp = None ->
    BrandButtons.secondary (BrandData.buttons bd) = None;
  default_logo :
    branding ["images"; "logo"] resp = None ->
    branding ["logo"] resp = None ->
    BrandData.logo_url bd = JNull;
  default_favicon :
    branding ["images"; "favicon"] resp = None ->
    BrandData.favicon_url bd = JNull;
  default_screenshots :
    path ["data"; "screenshot"] resp = None ->
    BrandData.screenshots bd = []
}.

(** The five colour keys of the vision reply, in the order of the palette. *)
Definition color_keys : list string :=
  ["primary"; "secondary"; "accent"; "background"; "text"].

(** The colour stored under [k] in the decoded reply [data], [None] if absent. *)
Definition color_entry (data : json) (k : string) : json :=
  or_default (path ["colors"; k] data) JNull.

Definition is_none (v : json) : bool :=
  match v with
  | JNull => true
  | _ => false
  end.

(** The palette as the specification words it: the five entries in the
    fixed order, the [None] ones left out. *)
Definition palette_without_none (data : json) : list json :=
  filter (fun v => negb (is_none v)) (map (color_entry data) color_keys).

(** A piece of code that raises nothing but [AttributeError]. *)
Definition raises_only_attribute_error {A : Type} (m : outcome A) : Prop :=
  forall e, m = Raises e -> e = AttributeError.

(** A transport that answers every request with [resp]. *)
Definition answers (resp : json) : json -> outcome json := fun _ => Returns resp.

(** A decoder known on finitely many texts: [json.loads] restricted to
    the texts of [table], every other text refused as no JSON. *)
Definition decoder_of (table : list (Text.str * json)) : Text.str -> outcome json :=
  fun s =>
    match find (fun entry => Text.eqb (fst entry) s) table with
    | Some entry => Returns (snd entry)
    | None => Raises (JSONDecodeError "Expecting value: line 1 column 1 (char 0)")
    end.


(** The code points of [s] between double quotes. *)
Definition quoted (s : string) : Text.str :=
  (34%N :: Text.of_string s ++ [34%N])%list.

End Payload.

(* ------------------------------------------------------------------ *)
(** ** Sample payloads *)

Module Samples.

Import Payload.

(** The scrape response of the end-to-end scenario. *)
Definition scenario_response : json :=
  JObj [("data", JObj [("branding", JObj [
    ("colors", JObj [("primary", JStr "#111111"); ("textPrimary", JStr "#222222")]);
    ("components", JObj [
      ("buttonPrimary", JObj [("background", JStr "#111111");
                              ("textColor", JStr "#ffffff");
                              ("borderRadius", JStr "8px")])])])])].

(** A response with typography, a secondary button and a screenshot. *)
Definition full_response : json :=
  JObj [("data", JObj [
    ("screenshot", JStr "https://shots.example/1.png");
    ("branding", JObj [
      ("colors", JObj [("primary", JStr "#0a0a0a"); ("accent", JStr "#ff9900")]);
      ("typography", JObj [
        ("fontFamilies", JObj [("primary", JStr "Inter"); ("heading", JStr "Poppins")]);
        ("fontWeights", JObj [("regular", JInt 400); ("bold", JInt 700)]);
        ("fontSizes", JObj [("body", JStr "18px")])]);
      ("spacing", JObj [("baseUnit", JInt 4); ("borderRadius", JStr "6px")]);
      ("components", JObj [
        ("buttonPrimary", JObj [("background", JStr "#0a0a0a")]);
        ("buttonSecondary", JObj [("borderColor", JStr "#cccccc")])]);
      ("images", JObj [("logo", JStr "https://example.com/logo.svg")])])])].

(** A response whose [colors] is a colour name instead of an object. *)
Definition colors_as_string : json :=
  JObj [("data", JObj [("branding", JObj [("colors", JStr "red")])])].

(** A response whose [fontWeights] is a list of weights. *)
Definition weights_as_list : json :=
  JObj [("data", JObj [("branding", JObj [
    ("typography", JObj [("fontFamilies", JObj [("primary", JStr "Inter")]);
                         ("fontWeights", JArr [JInt 400; JInt 700])])])])].

(** A response whose [buttonPrimary] component is an empty object. *)
Definition empty_button : json :=
  JObj [("data", JObj [("branding", JObj [
    ("components", JObj [("buttonPrimary", JObj [])])])])].


Definition reply_empty_object : Text.str := Text.of_string "{}".

(** The reply of the end-to-end scenario, without its fence. *)
Definition reply_mabry : Text.str :=
  (Text.of_string "{" ++ quoted "colors" ++ Text.of_string ":{"
   ++ quoted "primary" ++ Text.of_string ":" ++ quoted "#FF90E8" ++ Text.of_string ","
   ++ quoted "background" ++ Text.of_string ":" ++ quoted "#FFFFFF" ++ Text.of_string ","
   ++ quoted "text" ++ Text.of_string ":" ++ quoted "#000000" ++ Text.of_string "},"
   ++ quoted "typography" ++ Text.of_string ":{"
   ++ quoted "headings" ++ Text.of_string ":" ++ quoted "Mabry" ++ Text.of_string ","
   ++ quoted "body" ++ Text.of_string ":" ++ quoted "Mabry" ++ Text.of_string "},"
   ++ quoted "buttons" ++ Text.of_string ":{}}")%list.

Definition mabry : json :=
  JObj [("colors", JObj [("primary", JStr "#FF90E8");
                         ("background", JStr "#FFFFFF");
                         ("text", JStr "#000000")]);
        ("typography", JObj [("headings", JStr "Mabry"); ("body", JStr "Mabry")]);
        ("buttons", JObj [])].

(** A reply whose secondary colour is the empty string. *)
Definition reply_empty_secondary : Text.str :=
  (Text.of_string "{" ++ quoted "colors" ++ Text.of_string ":{"
   ++ quoted "primary" ++ Text.of_string ":" ++ quoted "#111111" ++ Text.of_string ","
   ++ quoted "secondary" ++ Text.of_string ":" ++ quoted "" ++ Text.of_string "}}")%list.

Definition empty_secondary : json :=
  JObj [("colors", JObj [("primary", JStr "#111111"); ("secondary", JStr "")])].

(** A reply that names a text colour, black, and no primary colour. *)
Definition reply_black_text : Text.str :=
  (Text.of_string "{" ++ quoted "colors" ++ Text.of_string ":{"
   ++ quoted "text" ++ Text.of_string ":" ++ quoted "#000000" ++ Text.of_string "}}")%list.

Definition black_text : json :=
  JObj [("colors", JObj [("text", JStr "#000000")])].

(** [json.loads] on the sample replies. *)
Definition sample_loads : Text.str -> outcome json :=
  decoder_of [(reply_empty_object, JObj []);
              (reply_mabry, mabry);
              (reply_empty_secondary, empty_secondary);
              (reply_black_text, black_text)].

(** A reply that breaks off after an integer of 4301 digits. *)
Definition reply_long_integer : Text.str :=
  (Text.of_string "{" ++ quoted "colors" ++ Text.of_string ":{"
   ++ quoted "primary" ++ Text.of_string ":" ++ repeat 49%N 4301)%list.

(** What [json.loads] says of an integer that long. *)
Definition digits_limit : string :=
  "Exceeds the limit (4300 digits) for integer string conversion: value has 4301 digits; use sys.set_int_max_str_digits() to increase the limit".


End Samples.

(* ------------------------------------------------------------------ *)
(** ** Sample clients *)

Module Clients.

(** A client whose construction succeeds whatever it is given. *)
Definition accepts {A : Type} : list (string * string) -> A -> outcome unit :=
  fun _ _ => Returns tt.

(** A character of a string stands for the code point of its number; the
    ASCII characters are those below 128. *)
Definition is_ascii (s : string) : bool :=
  forallb (fun c => Nat.ltb (nat_of_ascii c) 128) (list_ascii_of_string s).

(** A client that encodes the values of its headers as ASCII when it is
    constructed, as [httpx] does, and raises on a value it cannot
    encode. *)
Definition ascii_only : list (string * string) -> list (string * string) -> outcome unit :=
  fun _ headers =>
    if forallb (fun header => is_ascii (snd header)) headers then Returns tt
    else Raises UnicodeEncodeError.

(** The key [cle] with an acute accent on its last letter (U+00E9). *)
Definition accented_key : string := "cl" ++ String (ascii_of_nat 233) "".

End Clients.

(* ------------------------------------------------------------------ *)
(** ** More sample payloads *)

Module MoreSamples.

Import Payload.

(** A response whose [colors] carries keys the schema does not know, and a
    key [text] beside none named [textPrimary]. *)
Definition vendor_colors : json :=
  JObj [("data", JObj [("branding", JObj [
    ("colors", JObj [("primary", JStr "#112233");
                     ("text", JStr "#000000");
                     ("link", JStr "#0000ff")])])])].

(** A response whose base unit is a string and whose radius is zero. *)
Definition odd_spacing : json :=
  JObj [("data", JObj [("branding", JObj [
    ("spacing", JObj [("baseUnit", JStr "8px"); ("borderRadius", JInt 0)])])])].

(** A response with an empty [images.logo], a top-level [logo] and a
    top-level [favicon]. *)
Definition top_level_images : json :=
  JObj [("data", JObj [("branding", JObj [
    ("images", JObj [("logo", JStr "")]);
    ("logo", JStr "https://example.com/logo.png");
    ("favicon", JStr "https://example.com/favicon.ico")])])].

(** A response whose screenshot is [null]. *)
Definition null_screenshot : json :=
  JObj [("data", JObj [("screenshot", JNull); ("branding", JObj [])])].

(** Replies that are JSON but no object. *)
Definition reply_array : Text.str := Text.of_string "[]".

Definition reply_null : Text.str := Text.of_string "null".

(** A reply with typography and two buttons, the second without the
    [has_border] flag. *)
Definition bordered : json :=
  JObj [("colors", JObj [("primary", JStr "#ff5a5f")]);
        ("typography", JObj [("headings", JStr "Circular"); ("weights", JStr "bold")]);
        ("buttons", JObj [
          ("primary", JObj [("bg", JStr "#ff5a5f");
                            ("has_border", JBool true);
                            ("border", JStr "1px solid #000")]);
          ("secondary", JObj [("border", JStr "1px solid #ccc")])]);
        ("spacing", JObj [("grid", JStr "4px")]);
        ("logo_url", JStr "https://example.com/logo.svg")].

Definition reply_bordered : Text.str :=
  (Text.of_string "{" ++ quoted "colors" ++ Text.of_string ":{"
   ++ quoted "primary" ++ Text.of_string ":" ++ quoted "#ff5a5f" ++ Text.of_string "},"
   ++ quoted "typography" ++ Text.of_string ":{"
   ++ quoted "headings" ++ Text.of_string ":" ++ quoted "Circular" ++ Text.of_string ","
   ++ quoted "weights" ++ Text.of_string ":" ++ quoted "bold" ++ Text.of_string "},"
   ++ quoted "buttons" ++ Text.of_string ":{"
   ++ quoted "primary" ++ Text.of_string ":{"
   ++ quoted "bg" ++ Text.of_string ":" ++ quoted "#ff5a5f" ++ Text.of_string ","
   ++ quoted "has_border" ++ Text.of_string ":true,"
   ++ quoted "border" ++ Text.of_string ":" ++ quoted "1px solid #000" ++ Text.of_string "},"
   ++ quoted "secondary" ++ Text.of_string ":{"
   ++ quoted "border" ++ Text.of_string ":" ++ quoted "1px solid #ccc" ++ Text.of_string "}},"
   ++ quoted "spacing" ++ Text.of_string ":{"
   ++ quoted "grid" ++ Text.of_string ":" ++ quoted "4px" ++ Text.of_string "},"
   ++ quoted "logo_url" ++ Text.of_string ":" ++ quoted "https://example.com/logo.svg"
   ++ Text.of_string "}")%list.

(** A reply between fences on one line. *)
Definition reply_one_line : Text.str :=
  (VisionService.fence ++ Text.of_string "{}" ++ VisionService.fence)%list.

(** [reply_bordered] after an opening fence that is never closed. *)
Definition reply_unclosed : Text.str :=
  (VisionService.fence ++ Text.of_string "json" ++ Text.newline :: reply_bordered)%list.

(** What the parser makes of a button [btn] of the reply, with the
    defaults [bg] and [text] of its slot. *)
Definition button_of (btn bg text : json) : ButtonStyle.t :=
  {| ButtonStyle.bg := or_default (path ["bg"] btn) bg;
     ButtonStyle.text := or_default (path ["text"] btn) text;
     ButtonStyle.border_radius := or_default (path ["border_radius"] btn) (JStr "4px");
     ButtonStyle.padding := JStr "12px 24px";
     ButtonStyle.border :=
       if truthy (or_default (path ["has_border"] btn) JNull)
       then or_default (path ["border"] btn) JNull
       else JNull |}.

(** A complete reply whose primary colour is an integer of 4301 digits. *)
Definition reply_huge_number : Text.str :=
  (Samples.reply_long_integer ++ Text.of_string "}}")%list.

(** [json.loads] on these replies; on [reply_huge_number] it raises a
    plain [ValueError]. *)
Definition more_loads : Text.str -> outcome json :=
  fun s =>
    if Text.eqb s reply_huge_number then Raises (ValueError Samples.digits_limit)
    else decoder_of [(reply_array, JArr []);
                     (reply_null, JNull);
                     (Samples.reply_empty_object, JObj []);
                     (reply_bordered, bordered)] s.


(** A model whose call fails. *)
Definition fails (e : exn) : string -> outcome Text.str := fun _ => Raises e.

End MoreSamples.

(* ================================================================== *)
(** * Properties *)

Import Payload.

(** ** Running a chain of binds *)

Lemma bind_Returns {A B : Type} (m : outcome A) (k : A -> outcome B) (b : B) :
  bind m k = Returns b -> exists a, m = Returns a /\ k a = Returns b.
Proof. destruct m; cbn; intros H; try discriminate. eauto. Qed.

Lemma dict_get_Returns d k dflt v :
  dict_get d k dflt = Returns v -> exists items, d = JObj items.
Proof. destruct d; cbn; intros H; try discriminate. eauto. Qed.

Lemma dict_get_obj items k dflt v :
  dict_get (JObj items) k dflt = Returns v -> v = lookup_default items k dflt.
Proof. cbn. congruence. Qed.

(** Every step of a run that returned has returned: one equation a step. *)
Ltac split_binds H :=
  repeat (apply bind_Returns in H;
          let a := fresh "x" in
          let E := fresh "E" in
          destruct H as (a & E & H); cbv beta zeta in H).

(** What [.get] was called on is a dict, and what it gave is a lookup. *)
Ltac inv_gets :=
  repeat match goal with
  | E : dict_get (JObj _) _ _ = Returns _ |- _ => apply dict_get_obj in E
  | E : dict_get ?d _ _ = Returns _ |- _ =>
      is_var d;
      let items := fresh "items" in
      destruct (dict_get_Returns _ _ _ _ E) as (items & ->)
  end.

(** Names for the dicts a run has read, by the key they were read under. *)
Tactic Notation "name_dict" constr(key) ident(H) ident(items) :=
  match goal with
  | E : JObj ?i = lookup_default _ key _ |- _ => rename E into H; rename i into items
  end.

Ltac subst_lookups :=
  repeat match goal with
  | E : ?x = lookup_default _ _ _ |- _ => is_var x; subst x
  end.

Lemma path_lookup items k items' k' p :
  JObj items' = lookup_default items k (JObj []) ->
  path (k :: k' :: p) (JObj items) = path (k' :: p) (JObj items').
Proof.
  unfold lookup_default. cbn [path]. destruct (assoc k items) as [v|].
  - intros <-. reflexivity.
  - intros E. injection E as ->. reflexivity.
Qed.

Lemma path_field items k :
  path [k] (JObj items) = assoc k items.
Proof. cbn. destruct (assoc k items); reflexivity. Qed.

Lemma or_default_field items k dflt :
  or_default (path [k] (JObj items)) dflt = lookup_default items k dflt.
Proof. rewrite path_field. reflexivity. Qed.

Lemma truthy_lookup_present items k v :
  v = lookup_default items k JNull -> truthy v = true -> assoc k items = Some v.
Proof.
  unfold lookup_default. destruct (assoc k items); intros -> H; [reflexivity | discriminate].
Qed.

Lemma bind_ex {A B : Type} (m : outcome A) (k : A -> outcome B) (a : A) :
  m = Returns a -> (exists b, k a = Returns b) -> exists b, bind m k = Returns b.
Proof. intros ->. trivial. Qed.

Lemma bind_ex_any {A B : Type} (m : outcome A) (k : A -> outcome B) :
  (exists a, m = Returns a) -> (forall a, exists b, k a = Returns b) ->
  exists b, bind m k = Returns b.
Proof. intros (a & ->) Hk. apply Hk. Qed.

Lemma lookup_object items k :
  absent_or is_object (path [k] (JObj items)) = true ->
  exists items', JObj items' = lookup_default items k (JObj []).
Proof.
  rewrite path_field. unfold lookup_default.
  destruct (assoc k items) as [[]|]; cbn; intros H; try discriminate; eauto.
Qed.

Lemma subscript_after_get items k items' k' v :
  JObj items' = lookup_default items k (JObj []) ->
  assoc k' items' = Some v ->
  subscript (JObj items) k = Returns (JObj items').
Proof.
  unfold lookup_default. cbn. destruct (assoc k items).
  - intros <- _. reflexivity.
  - intros [= ->]. discriminate.
Qed.

Ltac fold_dicts :=
  repeat match goal with
  | R : JObj _ = lookup_default _ _ _ |- _ => rewrite <- R
  end.

(** One [.get] on a dict that was read. *)
Ltac get_step :=
  eapply bind_ex; [fold_dicts; cbn [dict_get]; reflexivity | cbv beta zeta].

(* ------------------------------------------------------------------ *)
(** ** The structured extractor *)

Section Structured.

Import FirecrawlService Samples.

(** C3.  On the scenario payload
    [{"data":{"branding":{"colors":{"primary":"#111111","textPrimary":"#222222"},
    "components":{"buttonPrimary":{"background":"#111111","textColor":"#ffffff",
    "borderRadius":"8px"}}}}}] the extractor returns a brand whose primary
    colour is ["#111111"], whose text colour is the vendor's [textPrimary]
    ["#222222"], and whose primary button has bg ["#111111"], border radius
    ["8px"] and padding ["12px 24px"], for every URL and either setting of
    the screenshot flag. *)
Theorem structured_scenario (url : string) (include_screenshots : bool) :
  exists bd b,
    extract_brand (answers scenario_response) url include_screenshots = Returns bd
    /\ BrandColors.primary (BrandData.colors bd) = JStr "#111111"
    /\ BrandColors.text (BrandData.colors bd) = JStr "#222222"
    /\ BrandButtons.primary (BrandData.buttons bd) = Some b
    /\ ButtonStyle.bg b = JStr "#111111"
    /\ ButtonStyle.border_radius b = JStr "8px"
    /\ ButtonStyle.padding b = JStr "12px 24px".
Proof.
  destruct include_screenshots; do 2 eexists;
    (split; [reflexivity | cbn; repeat split; reflexivity]).
Qed.

(** A run of [extract_brand] that returned, one equation for each step. *)
Ltac invert_extract Hpost H :=
  unfold extract_brand in H; rewrite Hpost in H; cbn [bind] in H;
  split_binds H; inv_gets; injection H as <-;
  name_dict "data" Rdata r_data;
  name_dict "branding" Rbranding r_branding;
  name_dict "colors" Rcolors r_colors;
  name_dict "typography" Rtypo r_typo;
  name_dict "fontFamilies" Rfamilies r_families;
  name_dict "fontSizes" Rsizes r_sizes;
  name_dict "spacing" Rspacing r_spacing;
  name_dict "components" Rcomponents r_components;
  name_dict "images" Rimages r_images;
  subst_lookups;
  unfold branding;
  match goal with
  | Rd : JObj _ = lookup_default _ "data" _,
    Rb : JObj _ = lookup_default _ "branding" _ |- _ =>
      rewrite ?(path_lookup _ _ _ _ _ Rd), ?(path_lookup _ _ _ _ _ Rb)
  end.

(** *** Missing fields and fields of another type *)

Lemma lookup_absent items k dflt :
  assoc k items = None -> lookup_default items k dflt = dflt.
Proof. unfold lookup_default. intros ->. reflexivity. Qed.

(** Whenever the extractor returns, every field the response leaves out
    has its default. *)
Lemma extract_brand_defaulted post url include_screenshots resp bd :
  post (payload url include_screenshots) = Returns resp ->
  extract_brand post url include_screenshots = Returns bd ->
  defaulted resp bd.
Proof.
  intros Hpost H.
  invert_extract Hpost H.
  rewrite ?(path_lookup _ _ _ _ _ Rcolors), ?(path_lookup _ _ _ _ _ Rtypo),
    ?(path_lookup _ _ _ _ _ Rfamilies), ?(path_lookup _ _ _ _ _ Rsizes),
    ?(path_lookup _ _ _ _ _ Rspacing), ?(path_lookup _ _ _ _ _ Rcomponents),
    ?(path_lookup _ _ _ _ _ Rimages), ?path_field in *.
  constructor; cbn [BrandData.colors BrandData.typography BrandData.spacing
    BrandData.buttons BrandData.logo_url BrandData.favicon_url BrandData.screenshots
    BrandColors.primary BrandColors.secondary BrandColors.accent
    BrandColors.background BrandColors.text BrandColors.palette
    BrandTypography.headings BrandTypography.body BrandTypography.weights
    BrandTypography.base_size BrandSpacing.grid BrandSpacing.gap
    BrandButtons.primary BrandButtons.secondary];
    unfold branding; rewrite ?(path_lookup _ _ _ _ _ Rdata), ?(path_lookup _ _ _ _ _ Rbranding),
      ?(path_lookup _ _ _ _ _ Rcolors), ?(path_lookup _ _ _ _ _ Rtypo),
      ?(path_lookup _ _ _ _ _ Rfamilies), ?(path_lookup _ _ _ _ _ Rsizes),
      ?(path_lookup _ _ _ _ _ Rspacing), ?(path_lookup _ _ _ _ _ Rcomponents),
      ?(path_lookup _ _ _ _ _ Rimages), ?path_field;
    try (intros Ha; apply lookup_absent; exact Ha).
  - (* palette *)
    intros Ha. rewrite (lookup_absent _ _ _ Ha) in Rcolors. injection Rcolors as ->.
    match goal with E : _ = Returns ?l |- ?l = _ => cbn in E; congruence end.
  - (* headings *)
    intros Ha Hb. rewrite (lookup_absent _ _ _ Ha). apply lookup_absent. exact Hb.
  - (* weights *)
    intros Ha.
    match goal with E : _ = Returns ?l |- ?l = _ =>
      rewrite (lookup_absent _ _ _ Ha) in E; cbn in E; congruence end.
  - (* grid *)
    intros Ha. rewrite (lookup_absent _ _ _ Ha). reflexivity.
  - (* gap *)
    intros Ha.
    match goal with E : _ = Returns ?l |- ?l = _ =>
      rewrite (lookup_absent _ _ _ Ha) in E; cbn in E; congruence end.
  - (* primary button *)
    intros Ha.
    match goal with E : _ = Returns ?l |- ?l = _ =>
      rewrite (lookup_absent _ _ _ Ha) in E; cbn in E; congruence end.
  - (* secondary button *)
    intros Ha.
    match goal with E : _ = Returns ?l |- ?l = _ =>
      rewrite (lookup_absent _ _ _ Ha) in E; cbn in E; congruence end.
  - (* logo *)
    intros Ha Hb.
    match goal with E : _ = Returns ?l |- ?l = _ =>
      rewrite (lookup_absent _ _ _ Ha) in E; cbn in E;
      rewrite (lookup_absent _ _ _ Hb) in E; congruence end.
  - (* screenshots *)
    intros Ha.
    match goal with E : _ = Returns ?l |- ?l = _ =>
      destruct include_screenshots; [| congruence];
      cbn [bind dict_get] in E; rewrite <- Rdata in E; cbn [py_in bind] in E;
      rewrite Ha in E; congruence end.
Qed.

(** A response of the expected shape is mapped without an exception. *)
Lemma extract_brand_returns post url include_screenshots resp :
  post (payload url include_screenshots) = Returns resp ->
  expected_shape resp = true ->
  exists bd, extract_brand post url include_screenshots = Returns bd.
Proof.
  intros Hpost Hshape. unfold expected_shape, branding in Hshape.
  repeat (apply andb_prop in Hshape; destruct Hshape as [Hshape ?]).
  destruct resp as [| | | | | |top]; try discriminate. clear Hshape.
  destruct (lookup_object top "data") as (r_data & Rdata); [assumption |].
  rewrite !(path_lookup _ _ _ _ _ Rdata) in *.
  destruct (lookup_object r_data "branding") as (r_branding & Rbranding); [assumption |].
  rewrite !(path_lookup _ _ _ _ _ Rbranding) in *.
  destruct (lookup_object r_branding "colors") as (r_colors & Rcolors); [assumption |].
  destruct (lookup_object r_branding "typography") as (r_typo & Rtypo); [assumption |].
  destruct (lookup_object r_branding "spacing") as (r_spacing & Rspacing); [assumption |].
  destruct (lookup_object r_branding "components") as (r_components & Rcomponents);
    [assumption |].
  destruct (lookup_object r_branding "images") as (r_images & Rimages); [assumption |].
  rewrite !(path_lookup _ _ _ _ _ Rtypo), !(path_lookup _ _ _ _ _ Rcomponents) in *.
  destruct (lookup_object r_typo "fontFamilies") as (r_families & Rfamilies); [assumption |].
  destruct (lookup_object r_typo "fontSizes") as (r_sizes & Rsizes); [assumption |].
  rewrite !path_field in *.
  match goal with
  | Hw : absent_or falsy_or_object (assoc "fontWeights" r_typo) = true,
    Hp : absent_or falsy_or_object (assoc "buttonPrimary" r_components) = true,
    Hs : absent_or falsy_or_object (assoc "buttonSecondary" r_components) = true |- _ =>
      rename Hw into Hweights; rename Hp into Hprimary; rename Hs into Hsecondary
  end.
  unfold extract_brand. rewrite Hpost. cbn [bind].
  do 2 get_step.
  (* screenshots *)
  apply bind_ex_any.
  { fold_dicts. destruct include_screenshots; [| eauto].
    cbn [bind dict_get]. rewrite <- Rdata. cbn [py_in bind].
    destruct (assoc "screenshot" r_data) as [shot|] eqn:Hshot; [| eauto].
    rewrite (subscript_after_get _ _ _ _ _ Rdata Hshot). cbn. rewrite Hshot. cbn. eauto. }
  intros screenshots.
  (* colors *)
  do 6 get_step.
  apply bind_ex_any.
  { fold_dicts. destruct r_colors; cbn; eauto. }
  intros palette.
  (* typography *)
  do 6 get_step.
  apply bind_ex_any.
  { fold_dicts. unfold lookup_default. destruct (assoc "fontWeights" r_typo) as [w|]; [| cbn; eauto].
    cbn in Hweights. unfold falsy_or_object in Hweights.
    destruct (truthy w); [| eauto]. destruct w; try discriminate. cbn. eauto. }
  intros weights.
  do 2 get_step.
  (* spacing *)
  do 3 get_step.
  apply bind_ex_any.
  { fold_dicts. destruct (truthy _); cbn; eauto. }
  intros gap.
  (* buttons *)
  do 2 get_step.
  apply bind_ex_any.
  { fold_dicts. unfold lookup_default, subscript.
    destruct (assoc "buttonPrimary" r_components) as [c|]; [| cbn; eauto].
    cbn in Hprimary. unfold falsy_or_object in Hprimary.
    destruct (truthy c); [| eauto]. destruct c; try discriminate. cbn. eauto. }
  intros b_primary.
  get_step.
  apply bind_ex_any.
  { fold_dicts. unfold lookup_default, subscript.
    destruct (assoc "buttonSecondary" r_components) as [c|]; [| cbn; eauto].
    cbn in Hsecondary. unfold falsy_or_object in Hsecondary.
    destruct (truthy c); [| eauto]. destruct c; try discriminate. cbn. eauto. }
  intros b_secondary.
  (* images *)
  do 2 get_step.
  apply bind_ex_any.
  { fold_dicts. destruct (truthy _); cbn; eauto. }
  intros logo.
  get_step.
  eauto.
Qed.

Lemma absent_or_object items k items' :
  JObj items' = lookup_default items k (JObj []) ->
  absent_or is_object (path [k] (JObj items)) = true.
Proof.
  rewrite path_field. unfold lookup_default.
  destruct (assoc k items); [intros <- |]; reflexivity.
Qed.

(** Conversely, a response that the extractor maps has the expected shape. *)
Lemma extract_brand_shape post url include_screenshots resp bd :
  post (payload url include_screenshots) = Returns resp ->
  extract_brand post url include_screenshots = Returns bd ->
  expected_shape resp = true.
Proof.
  intros Hpost H. invert_extract Hpost H.
  unfold expected_shape, branding.
  rewrite !(path_lookup _ _ _ _ _ Rdata), !(path_lookup _ _ _ _ _ Rbranding),
    !(path_lookup _ _ _ _ _ Rtypo), !(path_lookup _ _ _ _ _ Rcomponents).
  rewrite (absent_or_object _ _ _ Rdata), (absent_or_object _ _ _ Rbranding),
    (absent_or_object _ _ _ Rcolors), (absent_or_object _ _ _ Rtypo),
    (absent_or_object _ _ _ Rfamilies), (absent_or_object _ _ _ Rsizes),
    (absent_or_object _ _ _ Rspacing), (absent_or_object _ _ _ Rcomponents),
    (absent_or_object _ _ _ Rimages).
  rewrite !path_field. cbn [is_object andb].
  match goal with
  | Ew : (if truthy (lookup_default r_typo "fontWeights" _) then _ else _) = Returns _,
    Ep : (if truthy (lookup_default _ "buttonPrimary" _) then _ else _) = Returns _,
    Es : (if truthy (lookup_default _ "buttonSecondary" _) then _ else _) = Returns _ |- _ =>
      rename Ew into Hweights; rename Ep into Hprimary; rename Es into Hsecondary
  end.
  unfold lookup_default, subscript in Hweights, Hprimary, Hsecondary.
  assert (Gw : absent_or falsy_or_object (assoc "fontWeights" r_typo) = true).
  { destruct (assoc "fontWeights" r_typo) as [w|]; [| reflexivity].
    cbn. unfold falsy_or_object. destruct (truthy w); [| reflexivity].
    destruct w; cbn in Hweights; try discriminate. reflexivity. }
  assert (Gp : absent_or falsy_or_object (assoc "buttonPrimary" r_components) = true).
  { destruct (assoc "buttonPrimary" r_components) as [c|]; [| reflexivity].
    cbn. unfold falsy_or_object. destruct (truthy c); [| reflexivity].
    destruct c; cbn in Hprimary; try discriminate. reflexivity. }
  assert (Gs : absent_or falsy_or_object (assoc "buttonSecondary" r_components) = true).
  { destruct (assoc "buttonSecondary" r_components) as [c|]; [| reflexivity].
    cbn. unfold falsy_or_object. destruct (truthy c); [| reflexivity].
    destruct c; cbn in Hsecondary; try discriminate. reflexivity. }
  rewrite Gw, Gp, Gs. reflexivity.
Qed.

Lemma extract_brand_url post url include_screenshots bd :
  extract_brand post url include_screenshots = Returns bd -> BrandData.url bd = url.
Proof.
  unfold extract_brand. intros H. split_binds H. injection H as <-. reflexivity.
Qed.

(** *** The only exception of the mapping *)

Lemma only_Returns {A : Type} (a : A) : raises_only_attribute_error (Returns a).
Proof. intros e H. discriminate. Qed.

Lemma only_dict_get d k dflt : raises_only_attribute_error (dict_get d k dflt).
Proof. intros e. destruct d; cbn; intros H; congruence. Qed.

Lemma only_dict_values d : raises_only_attribute_error (dict_values d).
Proof. intros e. destruct d; cbn; intros H; congruence. Qed.

Lemma only_bind {A B : Type} (m : outcome A) (k : A -> outcome B) :
  raises_only_attribute_error m ->
  (forall a, m = Returns a -> raises_only_attribute_error (k a)) ->
  raises_only_attribute_error (bind m k).
Proof.
  intros Hm Hk e. destruct m as [a | e']; cbn.
  - apply Hk. reflexivity.
  - intros [= <-]. apply Hm. reflexivity.
Qed.

Lemma subscript_present items k v :
  assoc k items = Some v -> subscript (JObj items) k = Returns v.
Proof. cbn. intros ->. reflexivity. Qed.

(** The routine cases: a value, a [.get], a [.values()], a test. *)
Ltac only_attribute_error :=
  repeat first
    [ apply only_Returns
    | apply only_dict_get
    | apply only_dict_values
    | match goal with
      | |- raises_only_attribute_error (if ?c then _ else _) => destruct c
      end
    | apply only_bind; [| intros ? _] ].

(** One step of the run: the step raises nothing else, and if it returns
    the run goes on knowing what it returned. *)
Ltac only_step :=
  apply only_bind; [solve [only_attribute_error] | intros ? ?; inv_gets].

(** One button block: a component that is true is present. *)
Ltac only_button :=
  apply only_bind;
  [ match goal with
    | E : ?x = lookup_default _ _ JNull |- raises_only_attribute_error (if truthy ?x then _ else _) =>
        let T := fresh "T" in
        destruct (truthy x) eqn:T; [| apply only_Returns];
        rewrite (subscript_present _ _ _ (truthy_lookup_present _ _ _ E T));
        cbn [bind]; only_attribute_error
    end
  | intros ? _ ].

(** Once the transport has answered, [extract_brand] raises nothing but
    [AttributeError]: the subscripts and the membership test are guarded. *)
Lemma extract_brand_raises_only post url include_screenshots resp :
  post (payload url include_screenshots) = Returns resp ->
  raises_only_attribute_error (extract_brand post url include_screenshots).
Proof.
  intros Hpost. unfold extract_brand. rewrite Hpost. cbn [bind].
  do 2 only_step.
  (* screenshots *)
  apply only_bind.
  { destruct include_screenshots; [| apply only_Returns].
    cbn [bind dict_get].
    match goal with R : JObj ?d = lookup_default _ "data" _ |- _ =>
      rewrite <- R; cbn [py_in bind];
      destruct (assoc "screenshot" d) as [shot|] eqn:Hshot; [| apply only_Returns];
      rewrite (subscript_after_get _ _ _ _ _ R Hshot); cbn [bind];
      rewrite (subscript_present _ _ _ Hshot); apply only_Returns
    end. }
  intros screenshots _.
  (* colors *)
  do 6 only_step.
  apply only_bind; [solve [only_attribute_error] | intros palette _].
  (* typography *)
  do 6 only_step.
  apply only_bind; [solve [only_attribute_error] | intros weights _].
  do 2 only_step.
  (* spacing *)
  do 3 only_step.
  apply only_bind; [solve [only_attribute_error] | intros gap _].
  (* buttons *)
  do 2 only_step.
  only_button.
  only_step.
  only_button.
  (* images *)
  do 2 only_step.
  apply only_bind; [solve [only_attribute_error] | intros logo _].
  only_step.
  apply only_Returns.
Qed.

(** C6, as the code has it.  The extractor returns on every response of
    the expected shape - with a [fontWeights] that is absent, false in
    Python or an object - and whenever it returns, the typography of the
    result is read off the response: [headings] is [fontFamilies.heading] if present, else
    [fontFamilies.primary], else ["sans-serif"]; [body] is
    [fontFamilies.primary] or ["sans-serif"]; [weights] is the list of the
    values of a non-empty [fontWeights] in the order of its items, and
    [[400, 600, 700]] when [fontWeights] is empty or absent; [base_size]
    is [fontSizes.body] or ["16px"]. *)
Theorem typography_mapping post url include_screenshots resp :
  post (payload url include_screenshots) = Returns resp ->
  (expected_shape resp = true ->
   exists bd, extract_brand post url include_screenshots = Returns bd)
  /\ forall bd,
  extract_brand post url include_screenshots = Returns bd ->
  let typo := BrandData.typography bd in
  let field := fun ks => branding ("typography" :: ks) resp in
  BrandTypography.headings typo =
    or_default (field ["fontFamilies"; "heading"])
      (or_default (field ["fontFamilies"; "primary"]) (JStr "sans-serif"))
  /\ BrandTypography.body typo =
       or_default (field ["fontFamilies"; "primary"]) (JStr "sans-serif")
  /\ (forall w ws,
        field ["fontWeights"] = Some (JObj (w :: ws)) ->
        BrandTypography.weights typo = JArr (map snd (w :: ws)))
  /\ (field ["fontWeights"] = Some (JObj []) \/ field ["fontWeights"] = None ->
      BrandTypography.weights typo = JArr [JInt 400; JInt 600; JInt 700])
  /\ BrandTypography.base_size typo =
       or_default (field ["fontSizes"; "body"]) (JStr "16px").
Proof.
  intros Hpost. split; [exact (extract_brand_returns _ _ _ _ Hpost) |].
  intros bd H typo field. subst typo field.
  invert_extract Hpost H.
  cbn [BrandData.typography BrandTypography.headings
       BrandTypography.body BrandTypography.weights BrandTypography.base_size].
  rewrite !(path_lookup _ _ _ _ _ Rtypo).
  rewrite (path_field r_typo "fontWeights").
  rewrite !(path_lookup _ _ _ _ _ Rfamilies), !(path_lookup _ _ _ _ _ Rsizes),
    !or_default_field.
  match goal with
  | E : (if truthy (lookup_default r_typo "fontWeights" _) then _ else _) = Returns _ |- _ =>
      rename E into Hweights
  end.
  unfold lookup_default in Hweights.
  repeat split.
  - intros w ws Hw. rewrite Hw in Hweights. cbn in Hweights.
    injection Hweights as <-. reflexivity.
  - intros [Hw | Hw]; rewrite Hw in Hweights; cbn in Hweights; congruence.
Qed.

(** The typography of [full_response]. *)
Lemma typography_mapping_witness :
  exists bd,
    extract_brand (answers full_response) "https://example.com" true = Returns bd
    /\ BrandTypography.headings (BrandData.typography bd) = JStr "Poppins"
    /\ BrandTypography.body (BrandData.typography bd) = JStr "Inter"
    /\ BrandTypography.weights (BrandData.typography bd) = JArr [JInt 400; JInt 700]
    /\ BrandTypography.base_size (BrandData.typography bd) = JStr "18px".
Proof.
  destruct (typography_mapping (answers full_response) "https://example.com" true
              full_response eq_refl) as [Hreturns Hmap].
  destruct (Hreturns eq_refl) as (bd & Hbd).
  destruct (Hmap bd Hbd) as (Hh & Hb & Hw & _ & Hs).
  exists bd. split; [exact Hbd |].
  split; [exact Hh |]. split; [exact Hb |]. split; [exact (Hw _ _ eq_refl) | exact Hs].
Defined.

(** C6 as stated fails on a field of another type: a response whose
    [fontWeights] is the list [[400, 700]] has weights in an order of its
    own, and the extractor raises [AttributeError] on it - a list has no
    [values()]. *)
Lemma font_weights_as_list_raises :
  branding ["typography"; "fontWeights"] weights_as_list
    = Some (JArr [JInt 400; JInt 700])
  /\ extract_brand (answers weights_as_list) "https://example.com" false
     = Raises AttributeError.
Proof. split; reflexivity. Qed.

(** C5, as the code has it.  The extractor returns on every response of
    the expected shape, and whenever it returns: a
    [buttonPrimary] / [buttonSecondary] component that is a non-empty
    object gives a [ButtonStyle] with [bg] from [background] (default: the
    result's primary colour for the primary button, ["transparent"] for
    the secondary), [text] from [textColor] (default ["#ffffff"] for the
    primary button, the primary colour for the secondary), [border_radius]
    from [borderRadius] (default ["4px"]), padding ["12px 24px"], and a
    border taken from [borderColor] for the secondary button only; a
    component that is absent or an empty object leaves the slot absent. *)
Theorem button_mapping post url include_screenshots resp :
  post (payload url include_screenshots) = Returns resp ->
  (expected_shape resp = true ->
   exists bd, extract_brand post url include_screenshots = Returns bd)
  /\ forall bd,
  extract_brand post url include_screenshots = Returns bd ->
  let component := fun k => branding ["components"; k] resp in
  let primary_color := BrandColors.primary (BrandData.colors bd) in
  let get := fun btn k dflt => or_default (path [k] btn) dflt in
  (forall f fs, let btn := JObj (f :: fs) in
     component "buttonPrimary" = Some btn ->
     BrandButtons.primary (BrandData.buttons bd) =
       Some {| ButtonStyle.bg := get btn "background" primary_color;
               ButtonStyle.text := get btn "textColor" (JStr "#ffffff");
               ButtonStyle.border_radius := get btn "borderRadius" (JStr "4px");
               ButtonStyle.padding := JStr "12px 24px";
               ButtonStyle.border := JNull |})
  /\ (forall f fs, let btn := JObj (f :: fs) in
        component "buttonSecondary" = Some btn ->
        BrandButtons.secondary (BrandData.buttons bd) =
          Some {| ButtonStyle.bg := get btn "background" (JStr "transparent");
                  ButtonStyle.text := get btn "textColor" primary_color;
                  ButtonStyle.border_radius := get btn "borderRadius" (JStr "4px");
                  ButtonStyle.padding := JStr "12px 24px";
                  ButtonStyle.border := get btn "borderColor" JNull |})
  /\ (component "buttonPrimary" = None \/ component "buttonPrimary" = Some (JObj []) ->
      BrandButtons.primary (BrandData.buttons bd) = None)
  /\ (component "buttonSecondary" = None \/ component "buttonSecondary" = Some (JObj []) ->
      BrandButtons.secondary (BrandData.buttons bd) = None).
Proof.
  intros Hpost. split; [exact (extract_brand_returns _ _ _ _ Hpost) |].
  intros bd H component primary_color get. subst component primary_color get.
  invert_extract Hpost H.
  cbn [BrandData.buttons BrandData.colors BrandColors.primary
       BrandButtons.primary BrandButtons.secondary].
  rewrite !(path_lookup _ _ _ _ _ Rcomponents), !path_field.
  match goal with
  | E1 : (if truthy (lookup_default _ "buttonPrimary" _) then _ else _) = Returns _,
    E2 : (if truthy (lookup_default _ "buttonSecondary" _) then _ else _) = Returns _ |- _ =>
      rename E1 into Hprimary; rename E2 into Hsecondary
  end.
  unfold lookup_default at 1 in Hprimary. unfold lookup_default at 1 in Hsecondary.
  cbn [BrandColors.primary] in Hprimary, Hsecondary.
  repeat split.
  - intros f fs Hc. rewrite !or_default_field.
    rewrite Hc in Hprimary. cbn [truthy subscript] in Hprimary. rewrite Hc in Hprimary.
    cbn [bind dict_get] in Hprimary. congruence.
  - intros f fs Hc. rewrite !or_default_field.
    rewrite Hc in Hsecondary. cbn [truthy subscript] in Hsecondary. rewrite Hc in Hsecondary.
    cbn [bind dict_get] in Hsecondary. congruence.
  - intros [Hc | Hc]; rewrite Hc in Hprimary; cbn in Hprimary; congruence.
  - intros [Hc | Hc]; rewrite Hc in Hsecondary; cbn in Hsecondary; congruence.
Qed.

(** The two buttons of [full_response]. *)
Lemma button_mapping_witness :
  exists bd,
    extract_brand (answers full_response) "https://example.com" true = Returns bd
    /\ BrandButtons.primary (BrandData.buttons bd) =
         Some {| ButtonStyle.bg := JStr "#0a0a0a";
                 ButtonStyle.text := JStr "#ffffff";
                 ButtonStyle.border_radius := JStr "4px";
                 ButtonStyle.padding := JStr "12px 24px";
                 ButtonStyle.border := JNull |}
    /\ BrandButtons.secondary (BrandData.buttons bd) =
         Some {| ButtonStyle.bg := JStr "transparent";
                 ButtonStyle.text := JStr "#0a0a0a";
                 ButtonStyle.border_radius := JStr "4px";
                 ButtonStyle.padding := JStr "12px 24px";
                 ButtonStyle.border := JStr "#cccccc" |}.
Proof.
  eexists. split; [reflexivity |].
  destruct (proj2 (button_mapping (answers full_response) "https://example.com" true
                     full_response eq_refl) _ eq_refl) as (Hp & Hs & _ & _).
  split; [exact (Hp _ _ eq_refl) | exact (Hs _ _ eq_refl)].
Defined.

(** C5 as stated fails on a component that is present but empty: the
    response carries [buttonPrimary] as the object [{}], and the primary
    slot of the result is absent instead of a [ButtonStyle] of defaults. *)
Lemma empty_button_is_dropped :
  exists bd,
    extract_brand (answers empty_button) "https://example.com" false = Returns bd
    /\ branding ["components"; "buttonPrimary"] empty_button = Some (JObj [])
    /\ BrandButtons.primary (BrandData.buttons bd) = None.
Proof. eexists. repeat split. Qed.

(** C1, as the code has it.  A failure of the transport reaches the caller
    unchanged.  When the transport answers with a response of the expected
    shape - every field the mapping reads as a dict is absent or a dict -
    the extractor returns a [BrandData] for the given URL without raising,
    whichever fields are missing, and each missing field has its default.
    On any other response it raises [AttributeError]. *)
Theorem extract_brand_degrades post url include_screenshots :
  (forall e, post (payload url include_screenshots) = Raises e ->
             extract_brand post url include_screenshots = Raises e)
  /\ (forall resp,
        post (payload url include_screenshots) = Returns resp ->
        expected_shape resp = true ->
        exists bd,
          extract_brand post url include_screenshots = Returns bd
          /\ BrandData.url bd = url
          /\ defaulted resp bd)
  /\ (forall resp,
        post (payload url include_screenshots) = Returns resp ->
        expected_shape resp = false ->
        extract_brand post url include_screenshots = Raises AttributeError).
Proof.
  split; [| split].
  - intros e He. unfold extract_brand. rewrite He. reflexivity.
  - intros resp Hpost Hshape.
    destruct (extract_brand_returns _ _ _ _ Hpost Hshape) as (bd & Hbd).
    exists bd. split; [exact Hbd |]. split.
    + exact (extract_brand_url _ _ _ _ Hbd).
    + exact (extract_brand_defaulted _ _ _ _ _ Hpost Hbd).
  - intros resp Hpost Hshape.
    destruct (extract_brand post url include_screenshots) as [bd | e] eqn:Hrun.
    + rewrite (extract_brand_shape _ _ _ _ _ Hpost Hrun) in Hshape. discriminate.
    + f_equal. apply (extract_brand_raises_only _ _ _ _ Hpost). exact Hrun.
Qed.

(** The empty response [{}]: every field is defaulted. *)
Lemma extract_brand_degrades_witness :
  expected_shape (JObj []) = true
  /\ exists bd,
       extract_brand (answers (JObj [])) "https://example.com" true = Returns bd
       /\ BrandData.url bd = "https://example.com"
       /\ defaulted (JObj []) bd.
Proof.
  split; [reflexivity |].
  exact (proj1 (proj2 (extract_brand_degrades (answers (JObj [])) "https://example.com" true))
               (JObj []) eq_refl eq_refl).
Defined.

(** C1 as stated fails on a field of another type: a response whose
    [colors] is the string ["red"] makes the extractor raise
    [AttributeError], although the transport succeeded. *)
Lemma colors_as_string_raises :
  extract_brand (answers colors_as_string) "https://example.com" false
    = Raises AttributeError.
Proof. reflexivity. Qed.

(** *** Further rules of the mapping *)

Import MoreSamples.

(** X1.  Whenever the extractor returns, the colours of the result are
    read off [branding.colors]: [primary] (default ["#000000"]),
    [secondary], [accent], [background], and [text] from the key
    [textPrimary] - a key named [text] is not read.  The palette is the
    list of all values of [colors] in the order of its items, whatever
    their keys, and is empty when [colors] is absent. *)
Theorem structured_colors post url include_screenshots resp bd :
  post (payload url include_screenshots) = Returns resp ->
  extract_brand post url include_screenshots = Returns bd ->
  let color := fun k => or_default (branding ["colors"; k] resp) in
  let c := BrandData.colors bd in
  BrandColors.primary c = color "primary" (JStr "#000000")
  /\ BrandColors.secondary c = color "secondary" JNull
  /\ BrandColors.accent c = color "accent" JNull
  /\ BrandColors.background c = color "background" JNull
  /\ BrandColors.text c = color "textPrimary" JNull
  /\ (forall items, branding ["colors"] resp = Some (JObj items) ->
        BrandColors.palette c = map snd items)
  /\ (branding ["colors"] resp = None -> BrandColors.palette c = []).
Proof.
  intros Hpost H color c. subst color c.
  invert_extract Hpost H.
  cbn [BrandData.colors BrandColors.primary BrandColors.secondary BrandColors.accent
       BrandColors.background BrandColors.text BrandColors.palette].
  rewrite !(path_lookup _ _ _ _ _ Rcolors), !or_default_field, !path_field.
  match goal with
  | E : (if truthy (JObj r_colors) then _ else _) = Returns ?l |- _ => rename E into Hpalette
  end.
  assert (Hvalues : forall l, (if truthy (JObj r_colors) then dict_values (JObj r_colors)
                               else Returns []) = Returns l -> l = map snd r_colors).
  { intros l. destruct r_colors; cbn; congruence. }
  apply Hvalues in Hpalette. subst.
  repeat split.
  - intros items Hc. unfold lookup_default in Rcolors. rewrite Hc in Rcolors.
    injection Rcolors as ->. reflexivity.
  - intros Hc. rewrite (lookup_absent _ _ _ Hc) in Rcolors.
    injection Rcolors as ->. reflexivity.
Qed.

(** The colours of [vendor_colors]: no text colour, three palette entries. *)
Lemma structured_colors_witness :
  exists bd,
    extract_brand (answers vendor_colors) "https://example.com" false = Returns bd
    /\ BrandColors.primary (BrandData.colors bd) = JStr "#112233"
    /\ BrandColors.text (BrandData.colors bd) = JNull
    /\ BrandColors.palette (BrandData.colors bd)
         = [JStr "#112233"; JStr "#000000"; JStr "#0000ff"].
Proof.
  eexists. split; [reflexivity |].
  destruct (structured_colors (answers vendor_colors) "https://example.com" false
              vendor_colors _ eq_refl eq_refl) as (Hp & _ & _ & _ & Ht & Hpal & _).
  split; [exact Hp |]. split; [exact Ht | exact (Hpal _ eq_refl)].
Defined.

(** X2.  Whenever the extractor returns: the grid is the text of
    [spacing.baseUnit] followed by ["px"] - the decimal digits of an
    integer, a string as it is - and ["8px"] when the key is absent; the gap
    is [spacing.borderRadius] when that is true in Python, and absent when
    it is missing, [None], zero or empty. *)
Theorem structured_spacing post url include_screenshots resp bd :
  post (payload url include_screenshots) = Returns resp ->
  extract_brand post url include_screenshots = Returns bd ->
  let field := fun k => branding ["spacing"; k] resp in
  let sp := BrandData.spacing bd in
  (forall n, field "baseUnit" = Some (JInt n) ->
     BrandSpacing.grid sp = FText (NilZero.string_of_int (Z.to_int n) ++ "px"))
  /\ (forall s, field "baseUnit" = Some (JStr s) -> BrandSpacing.grid sp = FText (s ++ "px"))
  /\ (field "baseUnit" = None -> BrandSpacing.grid sp = FText "8px")
  /\ (forall r, field "borderRadius" = Some r -> truthy r = true -> BrandSpacing.gap sp = r)
  /\ (forall r, field "borderRadius" = Some r -> truthy r = false ->
        BrandSpacing.gap sp = JNull)
  /\ (field "borderRadius" = None -> BrandSpacing.gap sp = JNull).
Proof.
  intros Hpost H field sp. subst field sp.
  invert_extract Hpost H.
  cbn [BrandData.spacing BrandSpacing.grid BrandSpacing.gap].
  rewrite !(path_lookup _ _ _ _ _ Rspacing), !path_field.
  match goal with
  | E : (if truthy (lookup_default r_spacing "borderRadius" _) then _ else _) = Returns _ |- _ =>
      rename E into Hgap
  end.
  unfold lookup_default in *.
  repeat split.
  - intros n Hu. rewrite Hu. reflexivity.
  - intros s Hu. rewrite Hu. reflexivity.
  - intros Hu. rewrite Hu. reflexivity.
  - intros r Hr Ht. rewrite Hr in Hgap. rewrite Ht in Hgap. cbn in Hgap.
    unfold lookup_default in Hgap. rewrite Hr in Hgap. congruence.
  - intros r Hr Ht. rewrite Hr in Hgap. rewrite Ht in Hgap. congruence.
  - intros Hr. rewrite Hr in Hgap. cbn in Hgap. congruence.
Qed.

(** The spacing of [odd_spacing]: the unit ["8px"] gets a second ["px"],
    the radius [0] gives no gap. *)
Lemma structured_spacing_witness :
  exists bd,
    extract_brand (answers odd_spacing) "https://example.com" false = Returns bd
    /\ BrandSpacing.grid (BrandData.spacing bd) = FText "8pxpx"
    /\ BrandSpacing.gap (BrandData.spacing bd) = JNull.
Proof.
  eexists. split; [reflexivity |].
  destruct (structured_spacing (answers odd_spacing) "https://example.com" false
              odd_spacing _ eq_refl eq_refl) as (_ & Hs & _ & _ & Hfalse & _).
  split; [exact (Hs _ eq_refl) | exact (Hfalse _ eq_refl eq_refl)].
Defined.

(** X3.  Whenever the extractor returns: the logo is [images.logo] when
    that is true in Python, and otherwise the top-level [branding.logo]
    (absent if there is none); the favicon is [images.favicon] and has no
    such fallback - a top-level [favicon] is not read. *)
Theorem structured_images post url include_screenshots resp bd :
  post (payload url include_screenshots) = Returns resp ->
  extract_brand post url include_screenshots = Returns bd ->
  let logo := or_default (branding ["images"; "logo"] resp) JNull in
  BrandData.logo_url bd
    = (if truthy logo then logo else or_default (branding ["logo"] resp) JNull)
  /\ BrandData.favicon_url bd = or_default (branding ["images"; "favicon"] resp) JNull.
Proof.
  intros Hpost H logo. subst logo.
  invert_extract Hpost H.
  cbn [BrandData.logo_url BrandData.favicon_url].
  rewrite !(path_lookup _ _ _ _ _ Rimages), !or_default_field.
  match goal with
  | E : (if truthy (lookup_default r_images "logo" _) then _ else _) = Returns _ |- _ =>
      rename E into Hlogo
  end.
  split; [| reflexivity].
  destruct (truthy (lookup_default r_images "logo" JNull)); cbn in Hlogo; congruence.
Qed.

(** The images of [top_level_images]: the top-level logo, no favicon. *)
Lemma structured_images_witness :
  exists bd,
    extract_brand (answers top_level_images) "https://example.com" false = Returns bd
    /\ BrandData.logo_url bd = JStr "https://example.com/logo.png"
    /\ BrandData.favicon_url bd = JNull.
Proof.
  eexists. split; [reflexivity |].
  exact (structured_images (answers top_level_images) "https://example.com" false
           top_level_images _ eq_refl eq_refl).
Defined.

(** X4.  Whenever the extractor returns: without the screenshot flag the
    result has no screenshot, whatever the response carries; with the
    flag it has the one stored under [data.screenshot] - be it [null] -
    and none when that key is absent. *)
Theorem structured_screenshots post url include_screenshots resp bd :
  post (payload url include_screenshots) = Returns resp ->
  extract_brand post url include_screenshots = Returns bd ->
  BrandData.screenshots bd =
    if include_screenshots then
      match path ["data"; "screenshot"] resp with
      | Some shot => [shot]
      | None => []
      end
    else [].
Proof.
  intros Hpost H.
  invert_extract Hpost H.
  cbn [BrandData.screenshots].
  rewrite path_field.
  match goal with
  | E : (if include_screenshots then _ else _) = Returns _ |- _ => rename E into Hshots
  end.
  destruct include_screenshots; [| congruence].
  cbn [bind dict_get] in Hshots. rewrite <- Rdata in Hshots. cbn [py_in bind] in Hshots.
  destruct (assoc "screenshot" r_data) as [shot|] eqn:Hshot; [| congruence].
  rewrite (subscript_after_get _ _ _ _ _ Rdata Hshot) in Hshots. cbn [bind] in Hshots.
  rewrite (subscript_present _ _ _ Hshot) in Hshots. cbn in Hshots. congruence.
Qed.

(** The screenshots of [null_screenshot], with the flag and without. *)
Lemma structured_screenshots_witness :
  (exists bd,
     extract_brand (answers null_screenshot) "https://example.com" true = Returns bd
     /\ BrandData.screenshots bd = [JNull])
  /\ (exists bd,
       extract_brand (answers null_screenshot) "https://example.com" false = Returns bd
       /\ BrandData.screenshots bd = []).
Proof.
  split; eexists; (split; [reflexivity |]).
  - exact (structured_screenshots (answers null_screenshot) "https://example.com" true
             null_screenshot _ eq_refl eq_refl).
  - exact (structured_screenshots (answers null_screenshot) "https://example.com" false
             null_screenshot _ eq_refl eq_refl).
Defined.

(** X5.  The screenshot flag touches nothing but the screenshots: when the
    transport gives the same response to the request with the flag and to
    the one without, and the extractor returns with the flag, it returns
    without it too, with the same brand minus the screenshots. *)
Theorem screenshot_flag_frame post url resp bd :
  post (payload url true) = Returns resp ->
  post (payload url false) = Returns resp ->
  extract_brand post url true = Returns bd ->
  extract_brand post url false =
    Returns {| BrandData.url := BrandData.url bd;
               BrandData.colors := BrandData.colors bd;
               BrandData.typography := BrandData.typography bd;
               BrandData.spacing := BrandData.spacing bd;
               BrandData.buttons := BrandData.buttons bd;
               BrandData.logo_url := BrandData.logo_url bd;
               BrandData.favicon_url := BrandData.favicon_url bd;
               BrandData.screenshots := [] |}.
Proof.
  intros Htrue Hfalse H.
  invert_extract Htrue H.
  repeat match goal with
  | E : _ = Returns _ |- _ => progress cbn [bind dict_get] in E
  end.
  unfold extract_brand. rewrite Hfalse.
  repeat (cbn [bind dict_get]; fold_dicts;
          repeat match goal with
          | E : ?m = Returns _ |- context [?m] => rewrite E
          end).
  reflexivity.
Qed.

(** [full_response] without the flag: the same brand, no screenshot. *)
Lemma screenshot_flag_frame_witness :
  exists bd,
    extract_brand (answers full_response) "https://example.com" true = Returns bd
    /\ BrandData.screenshots bd = [JStr "https://shots.example/1.png"]
    /\ extract_brand (answers full_response) "https://example.com" false =
         Returns {| BrandData.url := BrandData.url bd;
                    BrandData.colors := BrandData.colors bd;
                    BrandData.typography := BrandData.typography bd;
                    BrandData.spacing := BrandData.spacing bd;
                    BrandData.buttons := BrandData.buttons bd;
                    BrandData.logo_url := BrandData.logo_url bd;
                    BrandData.favicon_url := BrandData.favicon_url bd;
                    BrandData.screenshots := [] |}.
Proof.
  eexists. split; [reflexivity |]. split; [reflexivity |].
  exact (screenshot_flag_frame (answers full_response) "https://example.com"
           full_response _ eq_refl eq_refl eq_refl).
Defined.

End Structured.

(* ------------------------------------------------------------------ *)
(** ** Trimming and lines *)

Section TextFacts.

Import Text.
Local Open Scope list_scope.

Lemma lstrip_trimmed s : trimmed_left (lstrip s).
Proof.
  induction s as [|c s IH]; cbn; [exact I |].
  destruct (isspace c) eqn:Hc; [exact IH | exact Hc].
Qed.

Lemma lstrip_id s : trimmed_left s -> lstrip s = s.
Proof. destruct s as [|c s]; cbn; [reflexivity | intros ->; reflexivity]. Qed.

Lemma lstrip_idempotent s : lstrip (lstrip s) = lstrip s.
Proof. apply lstrip_id, lstrip_trimmed. Qed.

Lemma lstrip_snoc s c : isspace c = false -> lstrip (s ++ [c]) = (lstrip s ++ [c])%list.
Proof.
  intros Hc. induction s as [|a s IH]; cbn.
  - rewrite Hc. reflexivity.
  - destruct (isspace a); [exact IH | reflexivity].
Qed.

Lemma rstrip_trimmed s : trimmed_left s -> trimmed_left (rstrip s).
Proof.
  destruct s as [|c s]; [intros _; exact I |].
  cbn [trimmed_left]. intros Hc. unfold rstrip. cbn [rev].
  rewrite (lstrip_snoc _ _ Hc), rev_app_distr. exact Hc.
Qed.

Lemma rstrip_idempotent s : rstrip (rstrip s) = rstrip s.
Proof. unfold rstrip. rewrite rev_involutive, lstrip_idempotent. reflexivity. Qed.

(** [s.strip().strip()] is [s.strip()]. *)
Lemma strip_idempotent s : strip (strip s) = strip s.
Proof.
  unfold strip.
  rewrite (lstrip_id (rstrip (lstrip s))) by apply rstrip_trimmed, lstrip_trimmed.
  apply rstrip_idempotent.
Qed.

(** A text between two characters that are not whitespace is trimmed. *)
Lemma strip_delimited a s b :
  isspace a = false -> isspace b = false ->
  strip (a :: s ++ [b]) = (a :: s ++ [b])%list.
Proof.
  intros Ha Hb. unfold strip, rstrip. cbn [lstrip]. rewrite Ha.
  assert (E : rev (a :: s ++ [b]) = b :: rev (a :: s)) by apply (rev_unit (a :: s) b).
  rewrite E. cbn [lstrip]. rewrite Hb, <- E. apply rev_involutive.
Qed.

Lemma lstrip_blank ws s : forallb isspace ws = true -> lstrip (ws ++ s) = lstrip s.
Proof.
  induction ws as [|c ws IH]; cbn [forallb app lstrip]; [reflexivity |].
  intros H. apply andb_prop in H. destruct H as [-> H]. exact (IH H).
Qed.

Lemma forallb_rev {A : Type} (f : A -> bool) (l : list A) :
  forallb f l = true -> forallb f (rev l) = true.
Proof.
  rewrite !forallb_forall. intros H x Hx. apply H, in_rev. exact Hx.
Qed.


Lemma split_lines_nonempty s : split_lines s <> [].
Proof.
  induction s as [|c s IH]; cbn; [discriminate |].
  destruct (c =? newline)%N; [discriminate |].
  destruct (split_lines s); [contradiction | discriminate].
Qed.

(** A first line without a newline is the first line. *)
Lemma split_lines_first line rest :
  forallb (fun c => negb (c =? newline)%N) line = true ->
  split_lines (line ++ newline :: rest) = line :: split_lines rest.
Proof.
  induction line as [|c line IH]; cbn [app forallb]; intros H.
  - reflexivity.
  - apply andb_prop in H. destruct H as [Hc H].
    cbn [split_lines]. destruct (c =? newline)%N; [discriminate |].
    rewrite (IH H). reflexivity.
Qed.


(** ["\n".join(s.split("\n"))] is [s]. *)
Lemma join_split_lines s : join_lines (split_lines s) = s.
Proof.
  induction s as [|c s IH]; [reflexivity |].
  cbn [split_lines].
  destruct (c =? newline)%N eqn:Hc.
  - apply N.eqb_eq in Hc. subst c.
    destruct (split_lines s) eqn:Hs; [exfalso; exact (split_lines_nonempty _ Hs) |].
    cbn [join_lines app]. cbn [join_lines] in IH. rewrite IH. reflexivity.
  - destruct (split_lines s) as [|line more] eqn:Hs;
      [exfalso; exact (split_lines_nonempty _ Hs) |].
    destruct more as [|line' more]; cbn [join_lines app] in *; rewrite <- IH; reflexivity.
Qed.

End TextFacts.

(* ------------------------------------------------------------------ *)
(** ** The visual extractor *)

Section Visual.

Import Text VisionService.
Local Open Scope list_scope.

Lemma unfenced_plain t : startswith (strip t) fence = false -> unfenced t = strip t.
Proof. unfold unfenced. intros ->. reflexivity. Qed.






(** A reply that opens and ends with a character that is no whitespace,
    and does not open with a backtick, reaches [json.loads] as it is. *)
Lemma cleaned_plain a s b :
  isspace a = false -> isspace b = false -> (96 =? a)%N = false ->
  strip (unfenced (a :: s ++ [b])) = a :: s ++ [b].
Proof.
  intros Ha Hb Hq. unfold unfenced. rewrite (strip_delimited a s b Ha Hb).
  unfold fence. cbn [startswith]. rewrite Hq. cbn [andb].
  apply strip_delimited; assumption.
Qed.





(** A parse that returned, one equation for each step of the mapping. *)
Ltac invert_parse Hloads H :=
  unfold _parse_response in H; rewrite Hloads in H; unfold brand_of in H;
  split_binds H; inv_gets; injection H as <-;
  name_dict "colors" Rcolors r_colors;
  subst_lookups.

(** A decoded reply of the expected shape is mapped without an exception. *)
Lemma brand_of_returns data source_url screenshot_url :
  reply_shape data = true ->
  exists bd, brand_of data source_url screenshot_url = Returns bd.
Proof.
  intros Hshape. unfold reply_shape in Hshape.
  repeat (apply andb_prop in Hshape; destruct Hshape as [Hshape ?]).
  destruct data as [| | | | | |top]; try discriminate. clear Hshape.
  destruct (lookup_object top "colors") as (r_colors & Rcolors); [assumption |].
  destruct (lookup_object top "typography") as (r_typo & Rtypo); [assumption |].
  destruct (lookup_object top "buttons") as (r_buttons & Rbuttons); [assumption |].
  rewrite !(path_lookup _ _ _ _ _ Rbuttons), !path_field in *.
  match goal with
  | Hp : absent_or falsy_or_object (assoc "primary" r_buttons) = true,
    Hs : absent_or falsy_or_object (assoc "secondary" r_buttons) = true |- _ =>
      rename Hp into Hprimary; rename Hs into Hsecondary
  end.
  unfold brand_of.
  (* colors, typography *)
  do 11 get_step. do 4 get_step.
  (* buttons *)
  do 2 get_step.
  apply bind_ex_any.
  { fold_dicts. unfold lookup_default at 1. unfold subscript.
    destruct (assoc "primary" r_buttons) as [c|]; [| cbn; eauto].
    cbn in Hprimary. unfold falsy_or_object in Hprimary.
    destruct (truthy c); [| eauto]. destruct c; try discriminate.
    cbn. destruct (truthy _); cbn; eauto. }
  intros b_primary.
  get_step.
  apply bind_ex_any.
  { fold_dicts. unfold lookup_default at 1. unfold subscript.
    destruct (assoc "secondary" r_buttons) as [c|]; [| cbn; eauto].
    cbn in Hsecondary. unfold falsy_or_object in Hsecondary.
    destruct (truthy c); [| eauto]. destruct c; try discriminate.
    cbn. destruct (truthy _); cbn; eauto. }
  intros b_secondary.
  eauto.
Qed.

(** The primary colour and the palette of a parsed reply. *)
Lemma parsed_palette json_loads response_text source_url screenshot_url data bd :
  json_loads (strip (unfenced response_text)) = Returns data ->
  _parse_response json_loads response_text source_url screenshot_url = Returns bd ->
  BrandColors.primary (BrandData.colors bd)
    = or_default (path ["colors"; "primary"] data) (JStr "#000000")
  /\ BrandColors.palette (BrandData.colors bd)
     = filter truthy (map (color_entry data) color_keys).
Proof.
  intros Hloads H.
  invert_parse Hloads H.
  cbn [BrandData.colors BrandColors.primary BrandColors.palette].
  unfold color_entry, color_keys. cbn [map].
  rewrite !(path_lookup _ _ _ _ _ Rcolors), !or_default_field.
  split; reflexivity.
Qed.

(** C7, as the code has it.  The parser returns on every decoded reply of
    the expected shape, and whenever it returns, the colours of the result
    are [colors.primary] (default
    ["#000000"]), [secondary], [accent], [background] (default ["#ffffff"])
    and [text] (default ["#000000"]), and the palette is the sequence
    [primary, secondary, accent, background, text] of the reply in that
    order without the entries that are false in Python: [None], and also
    the empty string, zero, [False] and empty containers. *)
Theorem visual_colors json_loads response_text source_url screenshot_url data :
  json_loads (strip (unfenced response_text)) = Returns data ->
  (reply_shape data = true ->
   exists bd, _parse_response json_loads response_text source_url screenshot_url = Returns bd)
  /\ forall bd,
  _parse_response json_loads response_text source_url screenshot_url = Returns bd ->
  let color := fun k => path ["colors"; k] data in
  let c := BrandData.colors bd in
  BrandColors.primary c = or_default (color "primary") (JStr "#000000")
  /\ BrandColors.secondary c = or_default (color "secondary") JNull
  /\ BrandColors.accent c = or_default (color "accent") JNull
  /\ BrandColors.background c = or_default (color "background") (JStr "#ffffff")
  /\ BrandColors.text c = or_default (color "text") (JStr "#000000")
  /\ BrandColors.palette c = filter truthy (map (color_entry data) color_keys).
Proof.
  intros Hloads. split.
  { intros Hshape. unfold _parse_response. rewrite Hloads.
    exact (brand_of_returns _ _ _ Hshape). }
  intros bd H color c. subst color c.
  destruct (parsed_palette _ _ _ _ _ _ Hloads H) as (Hprimary & Hpalette).
  split; [exact Hprimary |].
  invert_parse Hloads H.
  cbn [BrandData.colors BrandColors.secondary BrandColors.accent
       BrandColors.background BrandColors.text BrandColors.palette] in *.
  rewrite !(path_lookup _ _ _ _ _ Rcolors), !or_default_field.
  repeat split. exact Hpalette.
Qed.

(** The colours of the scenario reply. *)
Lemma visual_colors_witness :
  exists bd,
    _parse_response Samples.sample_loads Samples.reply_mabry
      "https://gumroad.com" "https://screenshot.url/img.png" = Returns bd
    /\ BrandColors.primary (BrandData.colors bd) = JStr "#FF90E8"
    /\ BrandColors.secondary (BrandData.colors bd) = JNull
    /\ BrandColors.background (BrandData.colors bd) = JStr "#FFFFFF"
    /\ BrandColors.palette (BrandData.colors bd) =
         [JStr "#FF90E8"; JStr "#FFFFFF"; JStr "#000000"].
Proof.
  destruct (visual_colors Samples.sample_loads Samples.reply_mabry
              "https://gumroad.com" "https://screenshot.url/img.png"
              Samples.mabry eq_refl) as [Hreturns Hmap].
  destruct (Hreturns eq_refl) as (bd & Hbd).
  destruct (Hmap bd Hbd) as (H1 & H2 & _ & H4 & _ & H6).
  exists bd. split; [exact Hbd |].
  split; [exact H1 |]. split; [exact H2 |]. split; [exact H4 | exact H6].
Defined.

(** C7 as stated fails on an entry that is false without being [None]:
    for the reply [{"colors":{"primary":"#111111","secondary":""}}] the
    palette of the result is [["#111111"]], while the five entries without
    the [None] ones are [["#111111", ""]]. *)
Lemma empty_string_color_is_filtered :
  exists bd,
    _parse_response Samples.sample_loads Samples.reply_empty_secondary
      "https://example.com" "https://screenshot.url/img.png" = Returns bd
    /\ BrandColors.palette (BrandData.colors bd) = [JStr "#111111"]
    /\ palette_without_none Samples.empty_secondary = [JStr "#111111"; JStr ""].
Proof. eexists. repeat split. Qed.

(** C10, as the code has it.  The parser returns on every decoded reply
    of the expected shape, and whenever it returns, every entry of the
    palette is a true value that the reply
    carries under one of the five colour keys.  When the reply has no
    [colors.primary], the primary colour of the result is ["#000000"] and
    the palette is made of the other four entries only, so the default is
    not added to it; when the reply has none of the five, the palette is
    empty. *)
Theorem palette_is_literal json_loads response_text source_url screenshot_url data :
  json_loads (strip (unfenced response_text)) = Returns data ->
  (reply_shape data = true ->
   exists bd, _parse_response json_loads response_text source_url screenshot_url = Returns bd)
  /\ forall bd,
  _parse_response json_loads response_text source_url screenshot_url = Returns bd ->
  let color := fun k => path ["colors"; k] data in
  let c := BrandData.colors bd in
  (forall v, In v (BrandColors.palette c) ->
     truthy v = true /\ exists k, In k color_keys /\ color k = Some v)
  /\ (color "primary" = None ->
      BrandColors.primary c = JStr "#000000"
      /\ BrandColors.palette c =
           filter truthy
             (map (color_entry data) ["secondary"; "accent"; "background"; "text"]))
  /\ ((forall k, In k color_keys -> color k = None) -> BrandColors.palette c = []).
Proof.
  intros Hloads. split.
  { intros Hshape. unfold _parse_response. rewrite Hloads.
    exact (brand_of_returns _ _ _ Hshape). }
  intros bd H color c. subst color c.
  destruct (parsed_palette _ _ _ _ _ _ Hloads H) as (Hp & Hpal).
  split; [| split].
  - intros v Hv. rewrite Hpal in Hv. apply filter_In in Hv. destruct Hv as [Hin Ht].
    split; [exact Ht |].
    apply in_map_iff in Hin. destruct Hin as (k & Hk & Hin).
    exists k. split; [exact Hin |].
    unfold color_entry in Hk. destruct (path ["colors"; k] data); cbn in Hk.
    + congruence.
    + subst v. discriminate Ht.
  - intros Hnone. split.
    + rewrite Hp, Hnone. reflexivity.
    + rewrite Hpal. unfold color_keys. cbn [map filter].
      unfold color_entry at 1. rewrite Hnone. reflexivity.
  - intros Hall. rewrite Hpal. unfold color_keys, color_entry. cbn [map].
    rewrite !Hall by (cbn; tauto). reflexivity.
Qed.

(** The reply [{}]: primary colour ["#000000"], empty palette. *)
Lemma palette_is_literal_witness :
  exists bd,
    _parse_response Samples.sample_loads Samples.reply_empty_object
      "https://example.com" "https://screenshot.url/img.png" = Returns bd
    /\ BrandColors.primary (BrandData.colors bd) = JStr "#000000"
    /\ BrandColors.palette (BrandData.colors bd) = [].
Proof.
  destruct (palette_is_literal Samples.sample_loads Samples.reply_empty_object
              "https://example.com" "https://screenshot.url/img.png"
              (JObj []) eq_refl) as [Hreturns Hmap].
  destruct (Hreturns eq_refl) as (bd & Hbd).
  destruct (Hmap bd Hbd) as (_ & Hprimary & Hempty).
  exists bd. split; [exact Hbd |].
  split.
  - exact (proj1 (Hprimary eq_refl)).
  - apply Hempty. intros k _. reflexivity.
Defined.

(** C10 as stated fails when the reply carries ["#000000"] under another
    key: [{"colors":{"text":"#000000"}}] has no primary colour, the primary
    colour of the result is the default ["#000000"], and ["#000000"] is in
    the palette. *)
Lemma black_text_is_in_palette :
  exists bd,
    _parse_response Samples.sample_loads Samples.reply_black_text
      "https://example.com" "https://screenshot.url/img.png" = Returns bd
    /\ path ["colors"; "primary"] Samples.black_text = None
    /\ BrandColors.primary (BrandData.colors bd) = JStr "#000000"
    /\ In (JStr "#000000") (BrandColors.palette (BrandData.colors bd)).
Proof. eexists. repeat split. left. reflexivity. Qed.

(** *** Further rules of the parser *)

Import MoreSamples.

(** A run of [brand_of] that returned, one equation for each step. *)
Ltac invert_brand H :=
  unfold brand_of in H;
  split_binds H; inv_gets; injection H as <-;
  name_dict "colors" Rcolors r_colors;
  name_dict "typography" Rtypo r_typo;
  name_dict "buttons" Rbuttons r_buttons;
  subst_lookups.

Ltac only_attribute_error :=
  repeat first
    [ apply only_Returns
    | apply only_dict_get
    | apply only_dict_values
    | match goal with
      | |- raises_only_attribute_error (if ?c then _ else _) => destruct c
      end
    | apply only_bind; [| intros ? _] ].

Ltac only_step :=
  apply only_bind; [solve [only_attribute_error] | intros ? ?; inv_gets].

Ltac only_button :=
  apply only_bind;
  [ match goal with
    | E : ?x = lookup_default _ _ JNull |- raises_only_attribute_error (if truthy ?x then _ else _) =>
        let T := fresh "T" in
        destruct (truthy x) eqn:T; [| apply only_Returns];
        rewrite (subscript_present _ _ _ (truthy_lookup_present _ _ _ E T));
        cbn [bind]; only_attribute_error
    end
  | intros ? _ ].

(** The mapping of a decoded reply raises nothing but [AttributeError]. *)
Lemma brand_of_raises_only data source_url screenshot_url :
  raises_only_attribute_error (brand_of data source_url screenshot_url).
Proof.
  unfold brand_of.
  do 11 only_step. do 4 only_step.
  do 2 only_step.
  only_button.
  only_step.
  only_button.
  apply only_Returns.
Qed.

(** A decoded reply that is mapped has the expected shape. *)
Lemma brand_of_shape data source_url screenshot_url bd :
  brand_of data source_url screenshot_url = Returns bd -> reply_shape data = true.
Proof.
  intros H. invert_brand H.
  unfold reply_shape.
  rewrite !(path_lookup _ _ _ _ _ Rbuttons).
  rewrite (absent_or_object _ _ _ Rcolors), (absent_or_object _ _ _ Rtypo),
    (absent_or_object _ _ _ Rbuttons).
  rewrite !path_field. cbn [is_object andb].
  match goal with
  | Ep : (if truthy (lookup_default _ "primary" JNull) then _ else _) = Returns _,
    Es : (if truthy (lookup_default _ "secondary" JNull) then _ else _) = Returns _ |- _ =>
      rename Ep into Hprimary; rename Es into Hsecondary
  end.
  unfold lookup_default at 1, subscript in Hprimary.
  unfold lookup_default at 1, subscript in Hsecondary.
  assert (Gp : absent_or falsy_or_object (assoc "primary" r_buttons) = true).
  { destruct (assoc "primary" r_buttons) as [c|]; [| reflexivity].
    cbn. unfold falsy_or_object. destruct (truthy c); [| reflexivity].
    destruct c; cbn in Hprimary; try discriminate. reflexivity. }
  assert (Gs : absent_or falsy_or_object (assoc "secondary" r_buttons) = true).
  { destruct (assoc "secondary" r_buttons) as [c|]; [| reflexivity].
    cbn. unfold falsy_or_object. destruct (truthy c); [| reflexivity].
    destruct c; cbn in Hsecondary; try discriminate. reflexivity. }
  rewrite Gp, Gs. reflexivity.
Qed.

(** How the parser can raise: on a decoded reply of another shape, or
    with an exception of [json.loads] that the handler does not take. *)
Lemma parse_response_raises json_loads response_text source_url screenshot_url e :
  _parse_response json_loads response_text source_url screenshot_url = Raises e ->
  (e = AttributeError
   /\ exists data,
        json_loads (strip (unfenced response_text)) = Returns data
        /\ reply_shape data = false)
  \/ (json_loads (strip (unfenced response_text)) = Raises e
      /\ is_decode_error e = false).
Proof.
  unfold _parse_response.
  destruct (json_loads (strip (unfenced response_text))) as [data | e'].
  - intros Hrun. left. split; [exact (brand_of_raises_only _ _ _ _ Hrun) |].
    exists data. split; [reflexivity |].
    destruct (reply_shape data) eqn:Hshape; [| reflexivity].
    destruct (brand_of_returns data source_url screenshot_url Hshape) as (bd & Hbd).
    congruence.
  - destruct (is_decode_error e') eqn:Hcaught; [discriminate |].
    intros [= ->]. right. split; [reflexivity | exact Hcaught].
Qed.

(** X6.  Only [JSONDecodeError] is caught.  A reply that [json.loads]
    accepts but that has not the expected shape - a list, [null], a
    [colors] that is no object - makes the parser raise [AttributeError];
    any other exception of [json.loads] ([ValueError] on an integer of
    more than 4300 digits, [RecursionError]) leaves the parser as it is.
    Conversely, these are the only two ways the parser raises. *)
Theorem parser_raises_on_misshapen_json json_loads response_text source_url screenshot_url :
  (forall data,
     json_loads (strip (unfenced response_text)) = Returns data ->
     reply_shape data = false ->
     _parse_response json_loads response_text source_url screenshot_url
       = Raises AttributeError)
  /\ (forall e,
        json_loads (strip (unfenced response_text)) = Raises e ->
        is_decode_error e = false ->
        _parse_response json_loads response_text source_url screenshot_url = Raises e)
  /\ (forall e,
        _parse_response json_loads response_text source_url screenshot_url = Raises e ->
        (e = AttributeError
         /\ exists data,
              json_loads (strip (unfenced response_text)) = Returns data
              /\ reply_shape data = false)
        \/ (json_loads (strip (unfenced response_text)) = Raises e
            /\ is_decode_error e = false)).
Proof.
  split; [| split].
  - unfold _parse_response. intros data -> Hshape.
    destruct (brand_of data source_url screenshot_url) as [bd | e] eqn:Hrun.
    + rewrite (brand_of_shape _ _ _ _ Hrun) in Hshape. discriminate.
    + f_equal. exact (brand_of_raises_only _ _ _ _ Hrun).
  - unfold _parse_response. intros e -> ->. reflexivity.
  - intros e. apply parse_response_raises.
Qed.

Lemma huge_number_cleaned :
  strip (unfenced reply_huge_number) = reply_huge_number.
Proof.
  assert (Hshape : reply_huge_number
                   = (123 :: removelast (tl reply_huge_number) ++ [125])%N)
    by (vm_compute; reflexivity).
  rewrite Hshape. apply cleaned_plain; reflexivity.
Qed.

(** The replies [[]] and [null], and a complete reply whose primary
    colour is an integer of 4301 digits. *)
Lemma parser_raises_on_misshapen_json_witness :
  _parse_response more_loads reply_array
    "https://example.com" "https://screenshot.url/img.png" = Raises AttributeError
  /\ _parse_response more_loads reply_null
       "https://example.com" "https://screenshot.url/img.png" = Raises AttributeError
  /\ _parse_response more_loads reply_huge_number
       "https://example.com" "https://screenshot.url/img.png"
     = Raises (ValueError Samples.digits_limit).
Proof.
  split; [| split].
  - exact (proj1 (parser_raises_on_misshapen_json more_loads reply_array
                    "https://example.com" "https://screenshot.url/img.png")
                 (JArr []) eq_refl eq_refl).
  - exact (proj1 (parser_raises_on_misshapen_json more_loads reply_null
                    "https://example.com" "https://screenshot.url/img.png")
                 JNull eq_refl eq_refl).
  - refine (proj1 (proj2 (parser_raises_on_misshapen_json more_loads reply_huge_number
                            "https://example.com" "https://screenshot.url/img.png"))
                  (ValueError Samples.digits_limit) _ eq_refl).
    rewrite huge_number_cleaned. vm_compute. reflexivity.
Defined.

(** X7.  [analyze_brand] catches no failure of the call of the model: it
    raises what the call raised.  Whatever it raises is the exception of
    the call, or an exception of [json.loads] on the reply other than
    [JSONDecodeError], or [AttributeError] from the mapping of the
    reply. *)
Theorem analyze_brand_failures create json_loads screenshot_url source_url :
  (forall e, create screenshot_url = Raises e ->
             analyze_brand create json_loads screenshot_url source_url = Raises e)
  /\ (forall e, analyze_brand create json_loads screenshot_url source_url = Raises e ->
                create screenshot_url = Raises e
                \/ (exists response_text,
                      create screenshot_url = Returns response_text
                      /\ json_loads (strip (unfenced response_text)) = Raises e
                      /\ is_decode_error e = false)
                \/ e = AttributeError).
Proof.
  unfold analyze_brand. split.
  - intros e ->. reflexivity.
  - intros e. destruct (create screenshot_url) as [text | e']; cbn [bind].
    + intros Hrun. right.
      destruct (parse_response_raises _ _ _ _ _ Hrun) as [(-> & _) | (Hloads & Hcaught)].
      * right. reflexivity.
      * left. exists text. repeat split; assumption.
    + intros [= ->]. left. reflexivity.
Qed.

(** A call of the model that fails with an HTTP error. *)
Lemma analyze_brand_failures_witness :
  analyze_brand (fails (HTTPError "529 overloaded")) more_loads
    "https://screenshot.url/img.png" "https://example.com"
  = Raises (HTTPError "529 overloaded").
Proof.
  exact (proj1 (analyze_brand_failures (fails (HTTPError "529 overloaded")) more_loads
                  "https://screenshot.url/img.png" "https://example.com")
               _ eq_refl).
Defined.

(** X8.  The typography of a parsed reply: [typography.headings] and
    [typography.body] with default ["sans-serif"], [typography.weights]
    with default [[400, 600, 700]] - each value as the reply has it,
    whatever its type - and never a base size. *)
Theorem visual_typography json_loads response_text source_url screenshot_url data bd :
  json_loads (strip (unfenced response_text)) = Returns data ->
  _parse_response json_loads response_text source_url screenshot_url = Returns bd ->
  BrandTypography.headings (BrandData.typography bd)
    = or_default (path ["typography"; "headings"] data) (JStr "sans-serif")
  /\ BrandTypography.body (BrandData.typography bd)
     = or_default (path ["typography"; "body"] data) (JStr "sans-serif")
  /\ BrandTypography.weights (BrandData.typography bd)
     = or_default (path ["typography"; "weights"] data) BrandTypography.default_weights
  /\ BrandTypography.base_size (BrandData.typography bd) = JNull.
Proof.
  intros Hloads H. unfold _parse_response in H. rewrite Hloads in H.
  invert_brand H.
  cbn [BrandData.typography BrandTypography.headings BrandTypography.body
       BrandTypography.weights BrandTypography.base_size].
  rewrite !(path_lookup _ _ _ _ _ Rtypo), !or_default_field.
  repeat split.
Qed.

Lemma visual_typography_witness :
  exists bd,
    _parse_response more_loads reply_bordered
      "https://example.com" "https://screenshot.url/img.png" = Returns bd
    /\ BrandTypography.headings (BrandData.typography bd) = JStr "Circular"
    /\ BrandTypography.body (BrandData.typography bd) = JStr "sans-serif"
    /\ BrandTypography.weights (BrandData.typography bd) = JStr "bold".
Proof.
  eexists. split; [reflexivity |].
  destruct (visual_typography more_loads reply_bordered
              "https://example.com" "https://screenshot.url/img.png" bordered _
              eq_refl eq_refl) as (Hh & Hb & Hw & _).
  split; [exact Hh |]. split; [exact Hb | exact Hw].
Defined.

(** One button block of the parser (lines 180-188 and 190-198). *)
Lemma button_block items k bg0 text0 b :
  (if truthy (lookup_default items k JNull) then
     btn <- subscript (JObj items) k ;;
     bg <- dict_get btn "bg" bg0 ;;
     text <- dict_get btn "text" text0 ;;
     border_radius <- dict_get btn "border_radius" (JStr "4px") ;;
     has_border <- dict_get btn "has_border" JNull ;;
     border <- (if truthy has_border then dict_get btn "border" JNull
                else Returns JNull) ;;
     Returns (Some {| ButtonStyle.bg := bg;
                      ButtonStyle.text := text;
                      ButtonStyle.border_radius := border_radius;
                      ButtonStyle.padding := JStr "12px 24px";
                      ButtonStyle.border := border |})
   else Returns None) = Returns b ->
  let slot := or_default (assoc k items) JNull in
  b = if truthy slot then Some (button_of slot bg0 text0) else None.
Proof.
  intros H slot. subst slot. unfold lookup_default at 1, subscript in H.
  destruct (assoc k items) as [btn|]; cbn [or_default];
    [| injection H as <-; reflexivity].
  destruct (truthy btn) eqn:Hbtn; [| injection H as <-; reflexivity].
  destruct btn as [| | | | | |fields]; cbn [bind dict_get] in H; try discriminate.
  unfold button_of. rewrite !or_default_field.
  destruct (truthy (lookup_default fields "has_border" JNull));
    cbn [bind dict_get] in H; injection H as <-; reflexivity.
Qed.

(** X9.  The buttons of a parsed reply.  A slot whose entry in [buttons]
    is absent or false in Python ([null], [{}]) stays empty.  Otherwise
    the style takes [bg], [text] and [border_radius] from the entry - with
    the primary colour of the result and ["#ffffff"] as defaults of the
    primary button, ["transparent"] and the primary colour for the
    secondary one, ["4px"] for the radius - the padding is always
    ["12px 24px"], and [border] is copied only when [has_border] is true in
    Python. *)
Theorem visual_buttons json_loads response_text source_url screenshot_url data bd :
  json_loads (strip (unfenced response_text)) = Returns data ->
  _parse_response json_loads response_text source_url screenshot_url = Returns bd ->
  let primary_color := BrandColors.primary (BrandData.colors bd) in
  let slot := fun k => or_default (path ["buttons"; k] data) JNull in
  primary_color = or_default (path ["colors"; "primary"] data) (JStr "#000000")
  /\ BrandButtons.primary (BrandData.buttons bd)
     = (if truthy (slot "primary")
        then Some (button_of (slot "primary") primary_color (JStr "#ffffff"))
        else None)
  /\ BrandButtons.secondary (BrandData.buttons bd)
     = (if truthy (slot "secondary")
        then Some (button_of (slot "secondary") (JStr "transparent") primary_color)
        else None).
Proof.
  intros Hloads H. unfold _parse_response in H. rewrite Hloads in H.
  invert_brand H.
  match goal with
  | Ep : (if truthy (lookup_default _ "primary" JNull) then _ else _) = Returns _,
    Es : (if truthy (lookup_default _ "secondary" JNull) then _ else _) = Returns _ |- _ =>
      apply button_block in Ep; apply button_block in Es;
      cbn zeta in Ep, Es; subst
  end.
  cbn [BrandData.colors BrandData.buttons BrandColors.primary
       BrandButtons.primary BrandButtons.secondary].
  rewrite !(path_lookup _ _ _ _ _ Rbuttons), (path_lookup _ _ _ _ _ Rcolors),
    !path_field.
  repeat split.
Qed.

(** The two buttons of [bordered]: the first has its border, the second,
    without [has_border], has none although the reply names one. *)
Lemma visual_buttons_witness :
  exists bd,
    _parse_response more_loads reply_bordered
      "https://example.com" "https://screenshot.url/img.png" = Returns bd
    /\ BrandButtons.primary (BrandData.buttons bd)
       = Some {| ButtonStyle.bg := JStr "#ff5a5f";
                 ButtonStyle.text := JStr "#ffffff";
                 ButtonStyle.border_radius := JStr "4px";
                 ButtonStyle.padding := JStr "12px 24px";
                 ButtonStyle.border := JStr "1px solid #000" |}
    /\ BrandButtons.secondary (BrandData.buttons bd)
       = Some {| ButtonStyle.bg := JStr "transparent";
                 ButtonStyle.text := JStr "#ff5a5f";
                 ButtonStyle.border_radius := JStr "4px";
                 ButtonStyle.padding := JStr "12px 24px";
                 ButtonStyle.border := JNull |}.
Proof.
  eexists. split; [reflexivity |].
  exact (proj2 (visual_buttons more_loads reply_bordered
                  "https://example.com" "https://screenshot.url/img.png" bordered _
                  eq_refl eq_refl)).
Defined.

(** X10.  What no reply can set.  Whenever the parser returns - on a
    decoded reply or with the defaults - the result has the given source
    URL, the given screenshot as its only screenshot, the default spacing,
    no logo, no favicon and no base size of the typography. *)
Theorem parser_constant_fields json_loads response_text source_url screenshot_url bd :
  _parse_response json_loads response_text source_url screenshot_url = Returns bd ->
  BrandData.url bd = source_url
  /\ BrandData.screenshots bd = [JStr screenshot_url]
  /\ BrandData.spacing bd = BrandSpacing.default
  /\ BrandData.logo_url bd = JNull
  /\ BrandData.favicon_url bd = JNull
  /\ BrandTypography.base_size (BrandData.typography bd) = JNull.
Proof.
  unfold _parse_response.
  destruct (json_loads (strip (unfenced response_text))) as [data | e].
  - intros H. invert_brand H. repeat split.
  - destruct (is_decode_error e); [| discriminate].
    intros [= <-]. repeat split.
Qed.

(** The reply [bordered] names a grid and a logo; neither is kept. *)
Lemma parser_constant_fields_witness :
  path ["spacing"; "grid"] bordered = Some (JStr "4px")
  /\ path ["logo_url"] bordered = Some (JStr "https://example.com/logo.svg")
  /\ exists bd,
       _parse_response more_loads reply_bordered
         "https://example.com" "https://screenshot.url/img.png" = Returns bd
       /\ BrandData.spacing bd = BrandSpacing.default
       /\ BrandData.logo_url bd = JNull.
Proof.
  split; [reflexivity |]. split; [reflexivity |].
  eexists. split; [reflexivity |].
  destruct (parser_constant_fields more_loads reply_bordered
              "https://example.com" "https://screenshot.url/img.png" _ eq_refl)
    as (_ & _ & Hspacing & Hlogo & _).
  split; [exact Hspacing | exact Hlogo].
Defined.

(** *** Whitespace and fences *)

Lemma rstrip_blank s ws : forallb isspace ws = true -> rstrip (s ++ ws) = rstrip s.
Proof.
  intros H. unfold rstrip. rewrite rev_app_distr.
  rewrite (lstrip_blank _ _ (forallb_rev _ _ H)). reflexivity.
Qed.

(** [s.strip()] does not see whitespace around [s]. *)
Lemma strip_blank ws1 s ws2 :
  forallb isspace ws1 = true -> forallb isspace ws2 = true ->
  strip (ws1 ++ s ++ ws2) = strip s.
Proof.
  intros H1 H2. unfold strip. rewrite (lstrip_blank _ _ H1).
  induction s as [|c s IH]; cbn [app lstrip].
  - rewrite <- (app_nil_r ws2), (lstrip_blank _ _ H2). reflexivity.
  - destruct (isspace c); [exact IH |].
    change (c :: s ++ ws2) with ((c :: s) ++ ws2). apply rstrip_blank, H2.
Qed.

(** A text without a line break is one line. *)
Lemma split_lines_single line :
  forallb (fun c => negb (c =? newline)%N) line = true -> split_lines line = [line].
Proof.
  induction line as [|c line IH]; cbn [forallb split_lines]; [reflexivity |].
  intros H. apply andb_prop in H. destruct H as [Hc H].
  apply negb_true_iff in Hc. rewrite Hc, (IH H). reflexivity.
Qed.

(** X11.  Whitespace before and after the reply never changes the
    result of the parser, whatever the reply is. *)
Theorem surrounding_whitespace_is_ignored json_loads ws1 response_text ws2
    source_url screenshot_url :
  forallb isspace ws1 = true -> forallb isspace ws2 = true ->
  _parse_response json_loads (ws1 ++ response_text ++ ws2) source_url screenshot_url
    = _parse_response json_loads response_text source_url screenshot_url.
Proof.
  intros H1 H2. unfold _parse_response, unfenced.
  rewrite (strip_blank _ _ _ H1 H2). reflexivity.
Qed.

(** The reply [bordered] after a blank line and before a tab. *)
Lemma surrounding_whitespace_is_ignored_witness :
  _parse_response more_loads ([newline; newline] ++ reply_bordered ++ [9%N])
      "https://example.com" "https://screenshot.url/img.png"
    = _parse_response more_loads reply_bordered
        "https://example.com" "https://screenshot.url/img.png".
Proof.
  exact (surrounding_whitespace_is_ignored more_loads [newline; newline] reply_bordered
           [9%N] "https://example.com" "https://screenshot.url/img.png"
           eq_refl eq_refl).
Defined.

(** X12.  An opening fence that is never closed costs the reply its
    first line only: when the last line of what follows is not a bare
    fence, the rest is parsed as if it had been sent alone. *)
Theorem unclosed_fence_drops_first_line json_loads tag s b source_url screenshot_url :
  forallb (fun c => negb (c =? newline)%N) tag = true ->
  isspace b = false ->
  eqb (strip (last (split_lines (s ++ [b])) [])) fence = false ->
  startswith (strip (s ++ [b])) fence = false ->
  _parse_response json_loads (fence ++ tag ++ newline :: s ++ [b])
      source_url screenshot_url
    = _parse_response json_loads (s ++ [b]) source_url screenshot_url.
Proof.
  intros Htag Hb Hlast Hplain. unfold _parse_response.
  rewrite (unfenced_plain _ Hplain), strip_idempotent.
  assert (Hopen : unfenced (fence ++ tag ++ newline :: s ++ [b]) = s ++ [b]).
  { unfold unfenced.
    assert (Hstrip : strip (fence ++ tag ++ newline :: s ++ [b])
                     = fence ++ tag ++ newline :: s ++ [b]).
    { assert (Hshape : fence ++ tag ++ newline :: s ++ [b]
                       = (96 :: ([96; 96] ++ tag ++ newline :: s) ++ [b])%N).
      { unfold fence. cbn [app]. do 3 f_equal. rewrite <- app_assoc. reflexivity. }
      rewrite Hshape. apply strip_delimited; [reflexivity | exact Hb]. }
    rewrite Hstrip.
    assert (Hstart : startswith (fence ++ tag ++ newline :: s ++ [b]) fence = true)
      by reflexivity.
    rewrite Hstart, app_assoc, split_lines_first
      by (rewrite forallb_app, Htag; reflexivity).
    cbn [tl].
    destruct (split_lines (s ++ [b])) as [|l ls] eqn:E;
      [exfalso; exact (split_lines_nonempty _ E) |].
    rewrite Hlast, <- E. apply join_split_lines. }
  rewrite Hopen. reflexivity.
Qed.

(** The reply [bordered] after the line of an opening fence. *)
Lemma unclosed_fence_drops_first_line_witness :
  _parse_response more_loads reply_unclosed
      "https://example.com" "https://screenshot.url/img.png"
    = _parse_response more_loads reply_bordered
        "https://example.com" "https://screenshot.url/img.png".
Proof.
  exact (unclosed_fence_drops_first_line more_loads (of_string "json")
           (removelast reply_bordered) 125%N
           "https://example.com" "https://screenshot.url/img.png"
           eq_refl eq_refl eq_refl eq_refl).
Defined.

(** X13.  A reply whose fences stand on one line is discarded: the whole
    line goes with the opening fence, [json.loads] is given the empty
    text, and the result is the default - whatever stood between the
    fences. *)
Theorem one_line_fence_is_discarded json_loads response_text line msg
    source_url screenshot_url :
  strip response_text = fence ++ line ->
  forallb (fun c => negb (c =? newline)%N) line = true ->
  json_loads [] = Raises (JSONDecodeError msg) ->
  _parse_response json_loads response_text source_url screenshot_url
    = Returns (_default_brand_data source_url screenshot_url).
Proof.
  intros Hstrip Hline Hempty. unfold _parse_response, unfenced.
  rewrite Hstrip.
  assert (Hstart : startswith (fence ++ line) fence = true) by reflexivity.
  rewrite Hstart, split_lines_single by (rewrite forallb_app, Hline; reflexivity).
  cbn [tl join_lines]. change (strip []) with (@nil N). rewrite Hempty. reflexivity.
Qed.

(** The reply [{}], which alone is decoded, between fences on one line. *)
Lemma one_line_fence_is_discarded_witness :
  more_loads (of_string "{}") = Returns (JObj [])
  /\ _parse_response more_loads reply_one_line
       "https://example.com" "https://screenshot.url/img.png"
     = Returns (_default_brand_data "https://example.com" "https://screenshot.url/img.png").
Proof.
  split; [reflexivity |].
  exact (one_line_fence_is_discarded more_loads reply_one_line
           (of_string "{}" ++ fence) _
           "https://example.com" "https://screenshot.url/img.png"
           eq_refl eq_refl eq_refl).
Defined.

End Visual.

(* ------------------------------------------------------------------ *)
(** ** Credentials *)

Section Credentials.

Import Clients.

(** [api_key or os.getenv(name)] with both sides missing or empty. *)
Lemma or_else_refused a b :
  nonempty a = false -> nonempty b = false -> or_else a b = None \/ or_else a b = Some "".
Proof.
  intros Ha Hb. unfold or_else. rewrite Ha.
  destruct b as [k|]; [right | left; reflexivity].
  cbn in Hb. apply negb_false_iff, String.eqb_eq in Hb. subst k. reflexivity.
Qed.

(** [api_key or os.getenv(name)] with a non-empty key on one side. *)
Lemma or_else_chosen a b k :
  a = Some k \/ (nonempty a = false /\ b = Some k) -> k <> "" -> or_else a b = Some k.
Proof.
  intros [-> | [Ha ->]] Hk; unfold or_else.
  - cbn. apply String.eqb_neq in Hk. rewrite Hk. reflexivity.
  - rewrite Ha. reflexivity.
Qed.

(** The key the constructors go on with is the argument or the variable. *)
Lemma or_else_source a b k :
  or_else a b = Some k -> a = Some k \/ (nonempty a = false /\ b = Some k).
Proof.
  unfold or_else. destruct (nonempty a) eqn:Ha; intros H; [left | right; split]; auto.
Qed.

(** C8, as the code has it.  Each constructor raises [ValueError] at once
    when the [api_key] argument is left out and the environment variable
    ([FIRECRAWL_API_KEY], [ANTHROPIC_API_KEY]) is absent - and likewise when
    whichever of the two is given is the empty string.  When the argument
    is a non-empty string, or the argument is left out or empty and the
    variable is a non-empty string, the check is passed and the
    constructor builds its client with that key: it succeeds, and keeps
    the key, when the client is built, and raises what the construction of
    the client raises otherwise.  A service that was constructed holds a
    non-empty key, so no later call can miss the credential. *)
Theorem credential_checked_at_construction
    (http_client : list (string * string) -> list (string * string) -> outcome unit)
    (model_client : list (string * string) -> string -> outcome unit)
    (environ : list (string * string)) (api_key : option string) :
  (* the structured extractor *)
  (nonempty api_key = false ->
   nonempty (getenv environ "FIRECRAWL_API_KEY") = false ->
   FirecrawlService.__init__ http_client environ api_key
     = Raises (ValueError "FIRECRAWL_API_KEY is required"))
  /\ (forall k,
        api_key = Some k
        \/ (nonempty api_key = false /\ getenv environ "FIRECRAWL_API_KEY" = Some k) ->
        k <> "" ->
        (http_client environ (FirecrawlService.headers_of k) = Returns tt ->
         exists svc, FirecrawlService.__init__ http_client environ api_key = Returns svc
                     /\ FirecrawlService.api_key svc = k)
        /\ (forall e,
              http_client environ (FirecrawlService.headers_of k) = Raises e ->
              FirecrawlService.__init__ http_client environ api_key = Raises e))
  /\ (forall svc, FirecrawlService.__init__ http_client environ api_key = Returns svc ->
        FirecrawlService.api_key svc <> "")
  (* the visual extractor *)
  /\ (nonempty api_key = false ->
      nonempty (getenv environ "ANTHROPIC_API_KEY") = false ->
      VisionService.__init__ model_client environ api_key
        = Raises (ValueError "ANTHROPIC_API_KEY is required"))
  /\ (forall k,
        api_key = Some k
        \/ (nonempty api_key = false /\ getenv environ "ANTHROPIC_API_KEY" = Some k) ->
        k <> "" ->
        (model_client environ k = Returns tt ->
         exists svc, VisionService.__init__ model_client environ api_key = Returns svc
                     /\ VisionService.api_key svc = k)
        /\ (forall e,
              model_client environ k = Raises e ->
              VisionService.__init__ model_client environ api_key = Raises e))
  /\ (forall svc, VisionService.__init__ model_client environ api_key = Returns svc ->
        VisionService.api_key svc <> "").
Proof.
  assert (Hneq : forall k : string, k <> "" -> negb (k =? "") = true)
    by (intros k Hk; apply negb_true_iff, String.eqb_neq; exact Hk).
  unfold FirecrawlService.__init__, VisionService.__init__.
  split; [| split; [| split; [| split; [| split]]]].
  - intros Ha He. destruct (or_else_refused _ _ Ha He) as [-> | ->]; reflexivity.
  - intros k Hsource Hk. rewrite (or_else_chosen _ _ _ Hsource Hk), (Hneq k Hk).
    split.
    + intros ->. cbn [bind]. eexists. split; reflexivity.
    + intros e ->. reflexivity.
  - intros svc.
    destruct (or_else api_key (getenv environ "FIRECRAWL_API_KEY")) as [k|];
      [| discriminate].
    destruct (k =? "") eqn:Hk; cbn [negb]; [discriminate |].
    destruct (http_client environ (FirecrawlService.headers_of k)); cbn [bind];
      [| discriminate].
    intros [= <-]. cbn. apply String.eqb_neq. exact Hk.
  - intros Ha He. destruct (or_else_refused _ _ Ha He) as [-> | ->]; reflexivity.
  - intros k Hsource Hk. rewrite (or_else_chosen _ _ _ Hsource Hk), (Hneq k Hk).
    split.
    + intros ->. cbn [bind]. eexists. split; reflexivity.
    + intros e ->. reflexivity.
  - intros svc.
    destruct (or_else api_key (getenv environ "ANTHROPIC_API_KEY")) as [k|];
      [| discriminate].
    destruct (k =? "") eqn:Hk; cbn [negb]; [discriminate |].
    destruct (model_client environ k); cbn [bind]; [| discriminate].
    intros [= <-]. cbn. apply String.eqb_neq. exact Hk.
Qed.

(** No argument, no variable: both constructors raise.  A key in the
    variable or in the argument, and a client that is built: they
    succeed.  A key that the client of the structured extractor cannot
    encode: its exception leaves the constructor. *)
Lemma credential_checked_at_construction_witness :
  FirecrawlService.__init__ ascii_only [] None
    = Raises (ValueError "FIRECRAWL_API_KEY is required")
  /\ VisionService.__init__ accepts [] None
       = Raises (ValueError "ANTHROPIC_API_KEY is required")
  /\ (exists svc,
        FirecrawlService.__init__ ascii_only [("FIRECRAWL_API_KEY", "env-key")] None
          = Returns svc
        /\ FirecrawlService.api_key svc = "env-key")
  /\ (exists svc,
        VisionService.__init__ accepts [] (Some "test-key") = Returns svc
        /\ VisionService.api_key svc = "test-key")
  /\ FirecrawlService.__init__ ascii_only [] (Some accented_key)
       = Raises UnicodeEncodeError.
Proof.
  split; [| split; [| split; [| split]]].
  - exact (proj1 (credential_checked_at_construction ascii_only accepts [] None)
                 eq_refl eq_refl).
  - exact (proj1 (proj2 (proj2 (proj2
             (credential_checked_at_construction ascii_only accepts [] None))))
                 eq_refl eq_refl).
  - refine (proj1 (proj1 (proj2
             (credential_checked_at_construction ascii_only accepts
                [("FIRECRAWL_API_KEY", "env-key")] None))
             "env-key" (or_intror (conj eq_refl eq_refl)) _) eq_refl).
    discriminate.
  - refine (proj1 (proj1 (proj2 (proj2 (proj2 (proj2
             (credential_checked_at_construction ascii_only accepts
                [] (Some "test-key"))))))
             "test-key" (or_introl eq_refl) _) eq_refl).
    discriminate.
  - refine (proj2 (proj1 (proj2
             (credential_checked_at_construction ascii_only accepts
                [] (Some accented_key)))
             accented_key (or_introl eq_refl) _) UnicodeEncodeError eq_refl).
    discriminate.
Defined.

(** C8 as stated fails on a credential that is present: with the argument
    given as the empty string, or with the variable set to the empty
    string, the constructor raises [ValueError] all the same; and with a
    key that has a character outside ASCII the client of the structured
    extractor cannot encode its [Authorization] header, so that the
    constructor raises [UnicodeEncodeError]. *)
Lemma present_credential_is_refused :
  FirecrawlService.__init__ ascii_only [] (Some "")
    = Raises (ValueError "FIRECRAWL_API_KEY is required")
  /\ VisionService.__init__ accepts [("ANTHROPIC_API_KEY", "")] None
       = Raises (ValueError "ANTHROPIC_API_KEY is required")
  /\ FirecrawlService.__init__ ascii_only [] (Some accented_key)
       = Raises UnicodeEncodeError.
Proof. split; [| split]; reflexivity. Qed.

(** X14.  A [FirecrawlService] is constructed only when its client was
    built, and that client was given [Authorization: Bearer <key>] and
    [Content-Type: application/json], where the key is the one the
    service kept; that key is the [api_key] argument or, with the argument
    left out or empty, the value of [FIRECRAWL_API_KEY].  With a non-empty
    argument the variable is not consulted: in any environment in which
    the client is built, the constructor returns the same service. *)
Theorem bearer_header_carries_the_key
    (client : list (string * string) -> list (string * string) -> outcome unit)
    (environ : list (string * string))
    (api_key : option string) (svc : FirecrawlService.t) :
  FirecrawlService.__init__ client environ api_key = Returns svc ->
  FirecrawlService.headers svc
    = [("Authorization", "Bearer " ++ FirecrawlService.api_key svc);
       ("Content-Type", "application/json")]
  /\ client environ (FirecrawlService.headers svc) = Returns tt
  /\ (api_key = Some (FirecrawlService.api_key svc)
      \/ (nonempty api_key = false
          /\ getenv environ "FIRECRAWL_API_KEY" = Some (FirecrawlService.api_key svc)))
  /\ forall environ',
       nonempty api_key = true ->
       client environ' (FirecrawlService.headers svc) = Returns tt ->
       FirecrawlService.__init__ client environ' api_key = Returns svc.
Proof.
  unfold FirecrawlService.__init__.
  destruct (or_else api_key (getenv environ "FIRECRAWL_API_KEY")) as [k|] eqn:Hkey;
    [| discriminate].
  destruct (negb (k =? "")) eqn:Hk; [| discriminate].
  destruct (client environ (FirecrawlService.headers_of k)) as [[] |] eqn:Hclient;
    cbn [bind]; [| discriminate].
  intros [= <-]. cbn [FirecrawlService.headers FirecrawlService.api_key].
  split; [reflexivity |]. split; [exact Hclient |].
  split; [exact (or_else_source _ _ _ Hkey) |].
  intros environ' Harg Hclient'.
  unfold or_else in *. rewrite Harg in *. rewrite Hkey, Hk, Hclient'. reflexivity.
Qed.

(** A key passed as argument while the variable holds another one. *)
Lemma bearer_header_carries_the_key_witness :
  exists svc,
    FirecrawlService.__init__ ascii_only [("FIRECRAWL_API_KEY", "env-key")] (Some "arg-key")
      = Returns svc
    /\ FirecrawlService.headers svc
       = [("Authorization", "Bearer arg-key"); ("Content-Type", "application/json")].
Proof.
  eexists. split; [reflexivity |].
  exact (proj1 (bearer_header_carries_the_key ascii_only
                  [("FIRECRAWL_API_KEY", "env-key")] (Some "arg-key") _ eq_refl)).
Defined.

End Credentials.

(* ------------------------------------------------------------------ *)
(** ** The similarity scorer *)

Section Scorer.

Import Similarity.
Local Open Scope R_scope.

Lemma hex_digit_range c d : hex_digit c = Some d -> (0 <= d <= 15)%Z.
Proof.
  unfold hex_digit. cbv zeta.
  repeat match goal with
  | |- context [if ?b then _ else _] =>
      let E := fresh "E" in
      destruct b eqn:E;
      [rewrite andb_true_iff, !Z.leb_le in E; intros H; injection H as H; lia |]
  end.
  discriminate.
Qed.

Lemma channel_range hi lo v : channel hi lo = Some v -> (0 <= v <= 255)%Z.
Proof.
  unfold channel.
  destruct (hex_digit hi) as [h|] eqn:Hh; [| discriminate].
  destruct (hex_digit lo) as [l|] eqn:Hl; [| discriminate].
  apply hex_digit_range in Hh, Hl. intros H.
  assert (v = 16 * h + l)%Z by congruence. lia.
Qed.

Lemma triple_range r g b x :
  (forall v, r = Some v -> (0 <= v <= 255)%Z) ->
  (forall v, g = Some v -> (0 <= v <= 255)%Z) ->
  (forall v, b = Some v -> (0 <= v <= 255)%Z) ->
  triple r g b = Some x -> in_range x.
Proof.
  destruct r as [r|], g as [g|], b as [b|]; cbn; try discriminate.
  intros Hr Hg Hb [= <-]. cbn. auto.
Qed.

Lemma hex_to_rgb_range color x : hex_to_rgb color = Some x -> in_range x.
Proof.
  unfold hex_to_rgb.
  destruct color as [|hash digits]; [discriminate |].
  destruct (Ascii.eqb hash "#"); [| discriminate].
  destruct (list_ascii_of_string digits) as [|c1 [|c2 [|c3 [|c4 [|c5 [|c6 [|c7 rest]]]]]]];
    try discriminate;
    apply triple_range; intros v; apply channel_range.
Qed.

Lemma distance_sq_range x y :
  in_range x -> in_range y -> (0 <= distance_sq x y <= max_distance_sq)%Z.
Proof.
  destruct x as [[r1 g1] b1], y as [[r2 g2] b2]. unfold in_range, distance_sq, max_distance_sq.
  intros (? & ? & ?) (? & ? & ?). nia.
Qed.

Lemma max_distance_pos : 0 < sqrt (IZR max_distance_sq).
Proof. apply sqrt_lt_R0. change (IZR max_distance_sq) with 195075. lra. Qed.

Lemma similarity_of_range x y :
  in_range x -> in_range y -> 0 <= similarity_of x y <= 1.
Proof.
  intros Hx Hy. destruct (distance_sq_range x y Hx Hy) as [Hlo Hhi].
  unfold similarity_of.
  pose proof max_distance_pos as Hm.
  pose proof (sqrt_pos (IZR (distance_sq x y))) as Hd.
  assert (Hle : sqrt (IZR (distance_sq x y)) <= sqrt (IZR max_distance_sq))
    by (apply sqrt_le_1_alt, IZR_le; exact Hhi).
  set (d := sqrt (IZR (distance_sq x y))) in *.
  set (m := sqrt (IZR max_distance_sq)) in *.
  assert (H0 : 0 <= d / m) by (apply Rmult_le_pos; [exact Hd | left; apply Rinv_0_lt_compat; exact Hm]).
  assert (H1 : d / m <= 1).
  { apply (Rmult_le_reg_r m); [exact Hm |].
    unfold Rdiv. rewrite Rmult_assoc, Rinv_l by lra. lra. }
  lra.
Qed.

Lemma distance_sq_sym x y : distance_sq x y = distance_sq y x.
Proof. destruct x as [[? ?] ?], y as [[? ?] ?]. unfold distance_sq. ring. Qed.

Lemma distance_sq_refl x : distance_sq x x = 0%Z.
Proof. destruct x as [[? ?] ?]. unfold distance_sq. ring. Qed.

Lemma similarity_of_refl x : similarity_of x x = 1.
Proof.
  unfold similarity_of. rewrite distance_sq_refl, sqrt_0. unfold Rdiv. rewrite Rmult_0_l. lra.
Qed.

(** C9, on the scorer as the specification describes it.  For hex
    colours [a] and [b]: the similarity of [a] with itself is 1, the
    similarity is symmetric and lies between 0 and 1; black and white are
    less than 0.5 similar, and ["#FF0000"] and ["#FF1111"] more than 0.9. *)
Theorem similarity_contract a b x y :
  hex_to_rgb a = Some x -> hex_to_rgb b = Some y ->
  calculate_color_similarity a a = Some 1
  /\ calculate_color_similarity a b = calculate_color_similarity b a
  /\ (exists s, calculate_color_similarity a b = Some s /\ 0 <= s <= 1)
  /\ (exists s, calculate_color_similarity "#000000" "#FFFFFF" = Some s /\ s < 1 / 2)
  /\ (exists s, calculate_color_similarity "#FF0000" "#FF1111" = Some s /\ s > 9 / 10).
Proof.
  intros Ha Hb. unfold calculate_color_similarity. rewrite Ha, Hb.
  split; [| split; [| split; [| split]]].
  - rewrite similarity_of_refl. reflexivity.
  - unfold similarity_of. rewrite distance_sq_sym. reflexivity.
  - eexists. split; [reflexivity |].
    apply similarity_of_range; eapply hex_to_rgb_range; eassumption.
  - exists (similarity_of (0, 0, 0)%Z (255, 255, 255)%Z). split; [reflexivity |].
    unfold similarity_of.
    change (distance_sq (0, 0, 0)%Z (255, 255, 255)%Z) with max_distance_sq.
    pose proof max_distance_pos as Hm.
    unfold Rdiv. rewrite Rinv_r by lra. lra.
  - exists (similarity_of (255, 0, 0)%Z (255, 17, 17)%Z). split; [reflexivity |].
    unfold similarity_of.
    change (IZR (distance_sq (255, 0, 0)%Z (255, 17, 17)%Z)) with 578.
    change (IZR max_distance_sq) with 195075.
    rewrite <- sqrt_div by lra.
    assert (H : sqrt (578 / 195075) < sqrt ((1 / 10) * (1 / 10))).
    { apply sqrt_lt_1; lra. }
    rewrite sqrt_square in H by lra. lra.
Qed.

(** Two hex colours of the test suite. *)
Lemma similarity_contract_witness :
  calculate_color_similarity "#FF0000" "#FF0000" = Some 1
  /\ calculate_color_similarity "#FF0000" "#FF1111"
       = calculate_color_similarity "#FF1111" "#FF0000"
  /\ (exists s, calculate_color_similarity "#FF0000" "#FF1111" = Some s /\ 0 <= s <= 1)
  /\ (exists s, calculate_color_similarity "#000000" "#FFFFFF" = Some s /\ s < 1 / 2)
  /\ (exists s, calculate_color_similarity "#FF0000" "#FF1111" = Some s /\ s > 9 / 10).
Proof.
  exact (similarity_contract "#FF0000" "#FF1111" (255, 0, 0)%Z (255, 17, 17)%Z
           eq_refl eq_refl).
Defined.

End Scorer.
